(** * Evaluation of classifier predictions on PDX samples

    A shallow embedding of [scripts/2A.evaluate-classifier-pdx.py]: the
    tables the notebook loads, the histology rewrite, the three left merges,
    the derivation of the two status columns and the metrics loop, with the
    pandas calls written out as the functions they are and the scikit-learn
    calls kept as an interface.

    Conventions.
    - A cell of a text column is [Some s] or [None]; [None] is pandas' NaN,
      which [read_table] produces for an empty field.
    - A data frame is column oriented, as in pandas: an ordered list of named
      columns, all of the length of the table.  The rows of a loaded table
      are the zip of its columns.
    - The identifier and symbol columns ([sample_id], [Model],
      [Hugo_Symbol], [Histology]) are text columns: [Some s] is a string
      value.  Of the dtypes pandas infers, only one is modelled: [.str] on
      a column without a single value.  A column whose fields all parse as
      numbers or booleans is read as such by pandas and has no counterpart
      here; [.str] raises on it too.  A run of In[11] that returns is thus a
      return of [normalize_histology].
    - The merges are followed on the columns the notebook reads afterwards;
      other columns of the clinical table ride along and are left out, and
      with them the clash of labels a clinical column named like a status
      column would bring.
    - The score table enters as parsed rows; its four score columns are
      binary64 numbers.
    - Python exceptions are values of [exn]; a computation that can raise
      returns a [result]. *)

From stdpp Require Import base option list strings gmap pretty.
From Stdlib Require Import Floats.PrimFloat.

(** ** Python values and exceptions *)

Module Py.

Inductive exn : Type :=
| FileNotFoundError (path : string)
| AttributeError (name : string)
| KeyError (key : string)
| ValueError (msg : string).

Inductive result (A : Type) : Type :=
| Ok (a : A)
| Raise (e : exn).
Arguments Ok {A} a.
Arguments Raise {A} e.

Definition bind {A B} (m : result A) (k : A → result B) : result B :=
  match m with
  | Ok a => k a
  | Raise e => Raise e
  end.

#[global] Instance result_bind : MBind result :=
  λ A B k m, bind m k.
#[global] Instance result_ret : MRet result := @Ok.

Definition succeeds {A} (m : result A) : Prop := ∃ a, m = Ok a.
Definition raises {A} (m : result A) : Prop := ∃ e, m = Raise e.

(** An object held in a column of mixed content: after [fillna(0)] the
    status columns hold gene symbols next to the integer 0. *)
Inductive obj : Type :=
| ONaN
| OStr (s : string)
| OInt (n : Z).

#[global] Instance obj_eq_dec : EqDecision obj.
Proof. solve_decision. Defined.

End Py.
Export Py.

(** ** The pandas operations the notebook calls *)

Module Pandas.

Abbreviation cell := (option string).
Abbreviation Series := (list (option string)).
Abbreviation DataFrame := (list (string * list (option string))).

(** [df[name]] and [df.name]: the first column carrying the label. *)
Fixpoint column (name : string) (df : DataFrame) : option Series :=
  match df with
  | [] => None
  | (n, c) :: rest => if decide (n = name) then Some c else column name rest
  end.

Definition getattr (df : DataFrame) (name : string) : result Series :=
  match column name df with
  | Some c => Ok c
  | None => Raise (AttributeError name)
  end.

Definition getitem (df : DataFrame) (name : string) : result Series :=
  match column name df with
  | Some c => Ok c
  | None => Raise (KeyError name)
  end.

(** [pat in s] on Python strings.  ['Other'] holds no regular-expression
    operator, so [str.contains('Other')] is this substring test, and it is
    case sensitive. *)
Fixpoint contains (pat s : string) : bool :=
  String.prefix pat s ||
  match s with
  | EmptyString => false
  | String _ s' => contains pat s'
  end.

(** The [.str] accessor exists on a column of strings.  A column that
    [read_table] parsed without a single string in it (all fields empty)
    is a float column, and [.str] raises there; a column of no rows at all
    keeps the object dtype.  The values of a [Series] are strings: a column
    pandas parsed as numbers or booleans, on which [.str] raises as well, is
    none. *)
Definition string_dtype (c : Series) : bool :=
  match c with
  | [] => true
  | _ => bool_decide (Exists is_Some c)
  end.

(** [c.str.contains(pat)]: a missing value stays missing in the mask. *)
Definition str_contains (pat : string) (c : Series) : result (list (option bool)) :=
  if string_dtype c then Ok (map (option_map (contains pat)) c)
  else Raise (AttributeError "str").

(** A mask used in [df.loc[mask, ...]] must be boolean throughout. *)
Fixpoint bool_indexer (mask : list (option bool)) : result (list bool) :=
  match mask with
  | [] => Ok []
  | Some b :: rest => bs ← bool_indexer rest; Ok (b :: bs)
  | None :: _ =>
      Raise (ValueError "cannot index with vector containing NA / NaN values")
  end.

(** [df.loc[mask, name] = v] *)
Definition mask_assign (mask : list bool) (v : cell) (c : Series) : Series :=
  zip_with (λ (b : bool) x, if b then v else x) mask c.

Definition loc_set (mask : list bool) (name : string) (v : cell)
    (df : DataFrame) : DataFrame :=
  (λ nc : string * Series,
     if decide (nc.1 = name) then (nc.1, mask_assign mask v nc.2) else nc) <$> df.

(** [left.merge(right, how='left', left_on=..., right_on=...)] on rows.
    Every left row is kept, in the order of the left table; it is paired
    with each right row of the same key, in the order of the right table,
    or with no row when there is none: the columns of the right table are
    then missing in the output row.  Keys are compared as cells: as pandas
    does, a missing key matches a missing key. *)
Definition partners {R : Type} (k : cell) (rkey : R → cell) (right : list R)
    : list (option R) :=
  match filter (λ r, k = rkey r) right with
  | [] => [None]
  | rs => Some <$> rs
  end.

Definition merge_left {L R O : Type} (lkey : L → cell) (rkey : R → cell)
    (row : L → option R → O) (left : list L) (right : list R) : list O :=
  left ≫= λ l, row l <$> partners (lkey l) rkey right.

End Pandas.
Export Pandas.

(** ** The notebook *)

Module Notebook.

(** The files on disk, as [read_table] parses them. *)
Definition ras_path : string := "data/raw/ras.genes.txt".
Definition tp53_path : string := "data/raw/tp53.muts.txt".
Definition clinical_path : string := "data/raw/2018-05-22-pdx-clinical.txt".

Definition read_table (fs : gmap string DataFrame) (path : string)
    : result DataFrame :=
  match fs !! path with
  | Some df => Ok df
  | None => Raise (FileNotFoundError path)
  end.

(** In[11], the rewrite of the histology column:
    [clinical_df.loc[clinical_df.Histology.str.contains('Other'), 'Histology'] = "Other"] *)
Definition normalize_histology (clinical_df : DataFrame) : result DataFrame :=
  histology ← getattr clinical_df "Histology";
  mask ← str_contains "Other" histology;
  rows ← bool_indexer mask;
  Ok (loc_set rows "Histology" (Some "Other") clinical_df).

(** *** Rows of the tables

    One record per shape the frame [scores_df] goes through.  The fields
    carry the column labels of the source. *)

(** [results/pdx_classifier_scores.tsv] *)
Module Scores.
Record row : Type := Row {
  sample_id : cell;
  ras_score : float;
  tp53_score : float;
  ras_shuffle : float;
  tp53_shuffle : float }.
End Scores.

(** The two columns of the clinical table that the notebook reads. *)
Module Clinical.
Record row : Type := Row { Model : cell; Histology : cell }.
End Clinical.

(** [status_df.loc[:, ['Hugo_Symbol', 'Model']]] *)
Module Status.
Record row : Type := Row { Hugo_Symbol : cell; Model : cell }.
End Status.

(** [scores_df] after In[14]. *)
Module In14.
Record row : Type := Row {
  sample_id : cell;
  ras_score : float;
  tp53_score : float;
  ras_shuffle : float;
  tp53_shuffle : float;
  Model : cell;
  Histology : cell }.
End In14.

(** After the first merge of In[16]: the TP53 symbol is still called
    [Hugo_Symbol]. *)
Module In16a.
Record row : Type := Row {
  sample_id : cell;
  ras_score : float;
  tp53_score : float;
  ras_shuffle : float;
  tp53_shuffle : float;
  Model : cell;
  Histology : cell;
  Hugo_Symbol : cell }.
End In16a.

(** [scores_df] after In[16]: the second merge finds [Hugo_Symbol] on
    both sides and applies [suffixes=('_tp53', '_ras')]. *)
Module In16.
Record row : Type := Row {
  sample_id : cell;
  ras_score : float;
  tp53_score : float;
  ras_shuffle : float;
  tp53_shuffle : float;
  Model : cell;
  Histology : cell;
  Hugo_Symbol_tp53 : cell;
  Hugo_Symbol_ras : cell }.
End In16.

(** [scores_df] from In[17] on. *)
Module Final.
Record row : Type := Row {
  sample_id : cell;
  ras_score : float;
  tp53_score : float;
  ras_shuffle : float;
  tp53_shuffle : float;
  Model : cell;
  Histology : cell;
  Hugo_Symbol_tp53 : cell;
  Hugo_Symbol_ras : cell;
  tp53_status : obj;
  ras_status : obj }.
End Final.

(** *** In[14]: [scores_df.merge(clinical_df, how='left', left_on='sample_id', right_on='Model')] *)
Definition with_clinical (s : Scores.row) (c : option Clinical.row) : In14.row :=
  In14.Row (Scores.sample_id s) (Scores.ras_score s) (Scores.tp53_score s)
    (Scores.ras_shuffle s) (Scores.tp53_shuffle s)
    (c ≫= Clinical.Model) (c ≫= Clinical.Histology).

Definition merge_clinical (scores_df : list Scores.row)
    (clinical_df : list Clinical.row) : list In14.row :=
  merge_left Scores.sample_id Clinical.Model with_clinical scores_df clinical_df.

(** *** In[16]: the two merges on [Model] *)
Definition with_tp53 (s : In14.row) (m : option Status.row) : In16a.row :=
  In16a.Row (In14.sample_id s) (In14.ras_score s) (In14.tp53_score s)
    (In14.ras_shuffle s) (In14.tp53_shuffle s) (In14.Model s)
    (In14.Histology s) (m ≫= Status.Hugo_Symbol).

Definition merge_tp53 (scores_df : list In14.row)
    (tp53_status_df : list Status.row) : list In16a.row :=
  merge_left In14.Model Status.Model with_tp53 scores_df tp53_status_df.

Definition with_ras (s : In16a.row) (m : option Status.row) : In16.row :=
  In16.Row (In16a.sample_id s) (In16a.ras_score s) (In16a.tp53_score s)
    (In16a.ras_shuffle s) (In16a.tp53_shuffle s) (In16a.Model s)
    (In16a.Histology s) (In16a.Hugo_Symbol s) (m ≫= Status.Hugo_Symbol).

Definition merge_ras (scores_df : list In16a.row)
    (ras_status_df : list Status.row) : list In16.row :=
  merge_left In16a.Model Status.Model with_ras scores_df ras_status_df.

(** *** In[17]: [assign(tp53_status = scores_df['Hugo_Symbol_tp53'])],
    then the same for [ras_status] *)
Definition as_obj (c : cell) : obj :=
  match c with
  | Some s => OStr s
  | None => ONaN
  end.

Definition assign_status (r : In16.row) : Final.row :=
  Final.Row (In16.sample_id r) (In16.ras_score r) (In16.tp53_score r)
    (In16.ras_shuffle r) (In16.tp53_shuffle r) (In16.Model r)
    (In16.Histology r) (In16.Hugo_Symbol_tp53 r) (In16.Hugo_Symbol_ras r)
    (as_obj (In16.Hugo_Symbol_tp53 r)) (as_obj (In16.Hugo_Symbol_ras r)).

(** *** In[18] *)

(** [.fillna(0)] on one status value *)
Definition fillna_0 (o : obj) : obj :=
  match o with
  | ONaN => OInt 0
  | _ => o
  end.

(** [.fillna('wild-type')] on one symbol *)
Definition fillna_wild_type (c : cell) : cell :=
  match c with
  | None => Some "wild-type"
  | Some _ => c
  end.

(** [x != 0] in Python: a string differs from 0, and so does NaN. *)
Definition ne_0 (o : obj) : bool :=
  match o with
  | OInt 0 => false
  | _ => true
  end.

(** [scores_df.loc[scores_df[col] != 0, col] = 1] on one status value *)
Definition set_1 (o : obj) : obj := if ne_0 o then OInt 1 else o.

Definition with_status (r : Final.row) (tp53 ras : obj) : Final.row :=
  Final.Row (Final.sample_id r) (Final.ras_score r) (Final.tp53_score r)
    (Final.ras_shuffle r) (Final.tp53_shuffle r) (Final.Model r)
    (Final.Histology r) (Final.Hugo_Symbol_tp53 r) (Final.Hugo_Symbol_ras r)
    tp53 ras.

Definition with_symbols (r : Final.row) (tp53 ras : cell) : Final.row :=
  Final.Row (Final.sample_id r) (Final.ras_score r) (Final.tp53_score r)
    (Final.ras_shuffle r) (Final.tp53_shuffle r) (Final.Model r)
    (Final.Histology r) tp53 ras (Final.tp53_status r) (Final.ras_status r).

Definition fill_status (r : Final.row) : Final.row :=
  with_status r (fillna_0 (Final.tp53_status r)) (fillna_0 (Final.ras_status r)).

Definition fill_symbols (r : Final.row) : Final.row :=
  with_symbols r (fillna_wild_type (Final.Hugo_Symbol_tp53 r))
    (fillna_wild_type (Final.Hugo_Symbol_ras r)).

Definition binarize_status (r : Final.row) : Final.row :=
  with_status r (set_1 (Final.tp53_status r)) (set_1 (Final.ras_status r)).

(** *** In[14] to In[18] in sequence *)
Definition reconcile (scores_df : list Scores.row)
    (clinical_df : list Clinical.row)
    (tp53_status_df ras_status_df : list Status.row) : list Final.row :=
  let scores_df := merge_clinical scores_df clinical_df in
  let scores_df := merge_ras (merge_tp53 scores_df tp53_status_df) ras_status_df in
  let scores_df := assign_status <$> scores_df in
  let scores_df := fill_status <$> scores_df in
  let scores_df := fill_symbols <$> scores_df in
  binarize_status <$> scores_df.

(** *** From the loaded frames to rows

    The merge of In[14] resolves [right_on='Model'] in the clinical frame
    and raises [KeyError] when the label is absent; In[16] selects
    [['Hugo_Symbol', 'Model']] from each status frame. *)
Definition clinical_rows (clinical_df : DataFrame) : result (list Clinical.row) :=
  model ← getitem clinical_df "Model";
  histology ← getitem clinical_df "Histology";
  Ok (zip_with Clinical.Row model histology).

Definition status_rows (status_df : DataFrame) : result (list Status.row) :=
  hugo_symbol ← getitem status_df "Hugo_Symbol";
  model ← getitem status_df "Model";
  Ok (zip_with Status.Row hugo_symbol model).

(** *** In[19]: the metrics loop

    The four scikit-learn functions are an interface of the notebook; what
    they compute is floating point arithmetic outside this development, so
    their results are kept abstract. *)
Class Sklearn (curve scalar : Type) : Type := {
  roc_curve : list obj → list float → result (curve * curve);
  precision_recall_curve : list obj → list float → result (curve * curve);
  roc_auc_score : list obj → list float → result scalar;
  average_precision_score : list obj → list float → result scalar }.

Inductive metric (curve scalar : Type) : Type :=
| Curve (c : curve)
| Scalar (x : scalar).
Arguments Curve {curve scalar} c.
Arguments Scalar {curve scalar} x.

(** The twelve dictionaries [fpr_pdx], ..., [aupr_shuff] of the module
    namespace, as one map from the dictionary's name and the key. *)
Abbreviation store curve scalar := (gmap (string * nat) (metric curve scalar)).

(** Statements of the loop body: they run on the dictionaries and may
    raise. *)
Definition stmt (curve scalar A : Type) : Type :=
  store curve scalar → store curve scalar * result A.

Definition stmt_bind {curve scalar A B} (m : stmt curve scalar A)
    (k : A → stmt curve scalar B) : stmt curve scalar B :=
  λ st, match m st with
        | (st', Ok a) => k a st'
        | (st', Raise e) => (st', Raise e)
        end.

Definition call {curve scalar A} (r : result A) : stmt curve scalar A :=
  λ st, (st, r).

(** [d[idx] = v] *)
Definition setitem {curve scalar} (d : string) (idx : nat)
    (v : metric curve scalar) : stmt curve scalar unit :=
  λ st, (<[(d, idx) := v]> st, Ok ()).

(** A statement that writes under the key [idx] only. *)
Definition writes_only {curve scalar A} (idx : nat) (m : stmt curve scalar A)
    : Prop :=
  ∀ st st' r, m st = (st', r) → ∀ d j, j ≠ idx → st' !! (d, j) = st !! (d, j).

Notation "x ⇐ m ;; k" := (stmt_bind m (λ x, k))
  (at level 100, m at next level, right associativity, only parsing).
Notation "m ;;; k" := (stmt_bind m (λ _, k))
  (at level 100, right associativity, only parsing).

Section Loop.
Context {curve scalar : Type} `{!Sklearn curve scalar}.

Definition evaluate (scores_df : list Final.row) (idx : nat)
    (status : Final.row → obj) (score shuff : Final.row → float)
    : stmt curve scalar unit :=
  let sample_status := status <$> scores_df in
  let sample_score := score <$> scores_df in
  let shuffle_score := shuff <$> scores_df in
  roc ⇐ call (roc_curve sample_status sample_score);;
  setitem "fpr_pdx" idx (Curve roc.1);;;
  setitem "tpr_pdx" idx (Curve roc.2);;;
  pr ⇐ call (precision_recall_curve sample_status sample_score);;
  setitem "precision_pdx" idx (Curve pr.1);;;
  setitem "recall_pdx" idx (Curve pr.2);;;
  auroc ⇐ call (roc_auc_score sample_status sample_score);;
  setitem "auroc_pdx" idx (Scalar auroc);;;
  aupr ⇐ call (average_precision_score sample_status sample_score);;
  setitem "aupr_pdx" idx (Scalar aupr);;;
  roc ⇐ call (roc_curve sample_status shuffle_score);;
  setitem "fpr_shuff" idx (Curve roc.1);;;
  setitem "tpr_shuff" idx (Curve roc.2);;;
  pr ⇐ call (precision_recall_curve sample_status shuffle_score);;
  setitem "precision_shuff" idx (Curve pr.1);;;
  setitem "recall_shuff" idx (Curve pr.2);;;
  auroc ⇐ call (roc_auc_score sample_status shuffle_score);;
  setitem "auroc_shuff" idx (Scalar auroc);;;
  aupr ⇐ call (average_precision_score sample_status shuffle_score);;
  setitem "aupr_shuff" idx (Scalar aupr).

(** [for status, score, shuff in zip(...)], with [idx += 1] closing the
    body. *)
Fixpoint for_each (scores_df : list Final.row) (idx : nat)
    (columns : list ((Final.row → obj) * (Final.row → float) * (Final.row → float)))
    : stmt curve scalar unit :=
  match columns with
  | [] => call (Ok ())
  | (status, score, shuff) :: rest =>
      evaluate scores_df idx status score shuff;;;
      for_each scores_df (S idx) rest
  end.

Definition metrics_loop (scores_df : list Final.row) : stmt curve scalar unit :=
  for_each scores_df 0
    [ (Final.ras_status, Final.ras_score, Final.ras_shuffle);
      (Final.tp53_status, Final.tp53_score, Final.tp53_shuffle) ].

(** *** The script, cell by cell

    The score table enters as rows: its columns are the numbers the
    classifier notebook wrote.  Printing and the calls that only draw are
    left out; [savefig] is what the run leaves on disk. *)

(** In[3] and In[7] *)
Definition load_status (fs : gmap string DataFrame) (path : string)
    : result DataFrame :=
  read_table fs path.

(** In[4]-In[6] and In[8]-In[10]: [status_df.Model.unique()],
    [status_df.Hugo_Symbol.value_counts()],
    [status_df.Variant_Classification.value_counts()] *)
Definition inspect_status (status_df : DataFrame) : result unit :=
  _ ← getattr status_df "Model";
  _ ← getattr status_df "Hugo_Symbol";
  _ ← getattr status_df "Variant_Classification";
  Ok ().

(** In[11] *)
Definition load_clinical (fs : gmap string DataFrame) : result DataFrame :=
  clinical_df ← read_table fs clinical_path;
  normalize_histology clinical_df.

(** In[3] to In[18].  The score table is an argument: reading it (In[13])
    is left to the caller, and so is the error of a missing score file. *)
Definition prepare (fs : gmap string DataFrame) (scores_df : list Scores.row)
    : result (list Final.row) :=
  ras_status_df ← load_status fs ras_path;
  _ ← inspect_status ras_status_df;
  tp53_status_df ← load_status fs tp53_path;
  _ ← inspect_status tp53_status_df;
  clinical_df ← load_clinical fs;
  clinical ← clinical_rows clinical_df;
  tp53 ← status_rows tp53_status_df;
  ras ← status_rows ras_status_df;
  Ok (reconcile scores_df clinical tp53 ras).

(** The figures saved by In[25] to In[28]. *)
Definition figures : list string :=
  [ "figures/ras_predictions.pdf";
    "figures/tp53_predictions.pdf";
    "figures/ras_predictions_histology.pdf";
    "figures/tp53_predictions_histology.pdf" ].

Record run : Type := Run {
  saved : list string;
  metrics : store curve scalar;
  outcome : result unit }.

Definition script (fs : gmap string DataFrame) (scores_df : list Scores.row) : run :=
  match prepare fs scores_df with
  | Raise e => Run [] ∅ (Raise e)
  | Ok scores_df =>
      match metrics_loop scores_df ∅ with
      | (st, Raise e) => Run [] st (Raise e)
      | (st, Ok _) => Run figures st (Ok ())
      end
  end.

End Loop.

(** What the loop depends on in scikit-learn 0.19, values erased: on labels
    of a single class [roc_curve] and [precision_recall_curve] warn and
    return, [roc_auc_score] raises [ValueError], and
    [average_precision_score] returns. *)
Definition single_class (y_true : list obj) : bool :=
  match y_true with
  | [] => true
  | y :: rest => forallb (λ y', bool_decide (y' = y)) rest
  end.

Definition sklearn_outcomes : Sklearn unit unit := {|
  roc_curve _ _ := Ok ((), ());
  precision_recall_curve _ _ := Ok ((), ());
  roc_auc_score y_true _ :=
    if single_class y_true
    then Raise (ValueError
      "Only one class present in y_true. ROC AUC score is not defined in that case.")
    else Ok ();
  average_precision_score _ _ := Ok () |}.

End Notebook.
Export Notebook.

(** ** The cells around the pipeline *)

(** *** In[4] and In[8]: [len(status_df.Model.unique())]

    [unique] keeps the first occurrence of every value, in order of
    appearance; a missing value counts as a value. *)
Fixpoint unique (c : Series) : Series :=
  match c with
  | [] => []
  | x :: rest => x :: filter (λ y, y ≠ x) (unique rest)
  end.

Definition count_models (status_df : DataFrame) : result nat :=
  model ← getattr status_df "Model";
  Ok (length (unique model)).

(** *** In[21] and In[22]: the two figures of curves

    What the cells read from the dictionaries, in the order Python
    evaluates the arguments of the two [plt.plot] calls of each round.
    [d[i]] on a dictionary without the key raises [KeyError] with the
    key. *)
Definition n_classes : nat := 2.

Definition subscript {curve scalar} (st : store curve scalar) (d : string)
    (i : nat) : result (metric curve scalar) :=
  match st !! (d, i) with
  | Some v => Ok v
  | None => Raise (KeyError (pretty i))
  end.

Fixpoint subscripts {curve scalar} (st : store curve scalar)
    (keys : list (string * nat)) : result (list (metric curve scalar)) :=
  match keys with
  | [] => Ok []
  | (d, i) :: rest =>
      v ← subscript st d i;
      vs ← subscripts st rest;
      Ok (v :: vs)
  end.

Definition roc_figure {curve scalar} (st : store curve scalar)
    : result (list (metric curve scalar)) :=
  subscripts st
    (i ← seq 0 n_classes;
     [ ("fpr_pdx", i); ("tpr_pdx", i); ("auroc_pdx", i);
       ("fpr_shuff", i); ("tpr_shuff", i); ("auroc_shuff", i) ]).

Definition pr_figure {curve scalar} (st : store curve scalar)
    : result (list (metric curve scalar)) :=
  subscripts st
    (i ← seq 0 n_classes;
     [ ("recall_pdx", i); ("precision_pdx", i); ("aupr_pdx", i);
       ("recall_shuff", i); ("precision_shuff", i); ("aupr_shuff", i) ]).

(** The names of the twelve dictionaries of In[19]. *)
Definition dictionaries : list string :=
  [ "fpr_pdx"; "tpr_pdx"; "precision_pdx"; "recall_pdx"; "auroc_pdx"; "aupr_pdx";
    "fpr_shuff"; "tpr_shuff"; "precision_shuff"; "recall_shuff"; "auroc_shuff";
    "aupr_shuff" ].

(** *** In[23] and In[24]: the two samples handed to [ttest_ind]

    [scores_df.query('ras_status == 1').loc[:, 'ras_score']] and its
    counterpart with 0; only the integer [n] equals [n]. *)
Definition query_scores (status : Final.row → obj) (score : Final.row → float)
    (n : Z) (scores_df : list Final.row) : list float :=
  score <$> filter (λ r, status r = OInt n) scores_df.

Definition ttest_samples (status : Final.row → obj) (score : Final.row → float)
    (scores_df : list Final.row) : list float * list float :=
  (query_scores status score 1 scores_df, query_scores status score 0 scores_df).

(** ** What one round of the loop leaves in the dictionaries

    [recorded st idx y_true y_score y_shuffle]: under the key [idx] the
    dictionaries hold what the four functions return on the labels with the
    scores, and on the same labels with the shuffled scores. *)
Definition recorded {curve scalar} `{!Sklearn curve scalar}
    (st : store curve scalar) (idx : nat) (y_true : list obj)
    (y_score y_shuffle : list float) : Prop :=
  ∃ roc pr auroc aupr roc' pr' auroc' aupr',
    roc_curve y_true y_score = Ok roc ∧
    precision_recall_curve y_true y_score = Ok pr ∧
    roc_auc_score y_true y_score = Ok auroc ∧
    average_precision_score y_true y_score = Ok aupr ∧
    roc_curve y_true y_shuffle = Ok roc' ∧
    precision_recall_curve y_true y_shuffle = Ok pr' ∧
    roc_auc_score y_true y_shuffle = Ok auroc' ∧
    average_precision_score y_true y_shuffle = Ok aupr' ∧
    st !! ("fpr_pdx", idx) = Some (Curve roc.1) ∧
    st !! ("tpr_pdx", idx) = Some (Curve roc.2) ∧
    st !! ("precision_pdx", idx) = Some (Curve pr.1) ∧
    st !! ("recall_pdx", idx) = Some (Curve pr.2) ∧
    st !! ("auroc_pdx", idx) = Some (Scalar auroc) ∧
    st !! ("aupr_pdx", idx) = Some (Scalar aupr) ∧
    st !! ("fpr_shuff", idx) = Some (Curve roc'.1) ∧
    st !! ("tpr_shuff", idx) = Some (Curve roc'.2) ∧
    st !! ("precision_shuff", idx) = Some (Curve pr'.1) ∧
    st !! ("recall_shuff", idx) = Some (Curve pr'.2) ∧
    st !! ("auroc_shuff", idx) = Some (Scalar auroc') ∧
    st !! ("aupr_shuff", idx) = Some (Scalar aupr').

(** A statement that writes under the keys [keys] only. *)
Definition writes_within {curve scalar A} (keys : list (string * nat))
    (m : stmt curve scalar A) : Prop :=
  ∀ st st' r, m st = (st', r) → ∀ k, k ∉ keys → st' !! k = st !! k.

(** ** The reconciled row, read off its sources

    [joined k rkey table o]: a left row of key [k] is paired with the row
    [o] of the right table, or with nothing when no right row has the key.
    [final_row] is the row the notebook ends with, given the score row and
    what the three merges paired it with. *)
Definition joined {R : Type} (k : cell) (rkey : R → cell) (table : list R)
    (o : option R) : Prop :=
  match o with
  | Some r => r ∈ table ∧ k = rkey r
  | None => ∀ r, r ∈ table → k ≠ rkey r
  end.

Definition status_of (symbol : cell) : obj := set_1 (fillna_0 (as_obj symbol)).

Definition final_row (s : Scores.row) (c : option Clinical.row)
    (t r : option Status.row) : Final.row :=
  Final.Row (Scores.sample_id s) (Scores.ras_score s) (Scores.tp53_score s)
    (Scores.ras_shuffle s) (Scores.tp53_shuffle s)
    (c ≫= Clinical.Model) (c ≫= Clinical.Histology)
    (fillna_wild_type (t ≫= Status.Hugo_Symbol))
    (fillna_wild_type (r ≫= Status.Hugo_Symbol))
    (status_of (t ≫= Status.Hugo_Symbol))
    (status_of (r ≫= Status.Hugo_Symbol)).

(** A mutation row that names a gene. *)
Definition names_gene (m : Status.row) : Prop :=
  is_Some (Status.Hugo_Symbol m) ∧ Status.Hugo_Symbol m ≠ Some "wild-type".

(** The model identifier [k] appears in at least one row of a mutation
    table. *)
Definition in_table (table : list Status.row) (k : cell) : Prop :=
  ∃ m, m ∈ table ∧ k = Status.Model m.

(** What the rewrite of In[11] does to one histology: any value with
    ["Other"] in it becomes ["Other"]. *)
Definition normalized (histology : string) : string :=
  if contains "Other" histology then "Other" else histology.

(** ** Sample tables *)

Module Sample.

Definition S1 : Scores.row := Scores.Row (Some "S1") 0.875 0.25 0.5 0.375.
Definition S2 : Scores.row := Scores.Row (Some "S2") 0.125 0.75 0.625 0.5.

Definition lung : Clinical.row := Clinical.Row (Some "S1") (Some "Lung").
Definition breast : Clinical.row := Clinical.Row (Some "S1") (Some "Breast").

Definition kras : Status.row := Status.Row (Some "KRAS") (Some "S1").
Definition nras : Status.row := Status.Row (Some "NRAS") (Some "S1").
Definition tp53 : Status.row := Status.Row (Some "TP53") (Some "S1").

Definition hras : Status.row := Status.Row (Some "HRAS") (Some "S3").

(** A row of the Ras table whose gene field is empty. *)
Definition unnamed : Status.row := Status.Row None (Some "S1").

(** A row of the Ras table whose model field is empty. *)
Definition orphan : Status.row := Status.Row (Some "KRAS") None.

(** A clinical table as loaded, and one with an empty histology field. *)
Definition clinical_df : DataFrame :=
  [ ("Model", [Some "S1"; Some "S3"; Some "S4"]);
    ("Histology", [Some "Lung"; Some "Sarcoma - Other soft tissue"; Some "other"]) ].

Definition clinical_gap : DataFrame :=
  [ ("Model", [Some "S1"; Some "S3"]);
    ("Histology", [Some "Other"; None]) ].


(** Status tables as loaded: one complete, one without the [Model]
    column. *)
Definition tp53_df : DataFrame :=
  [ ("Model", [Some "S1"]);
    ("Hugo_Symbol", [Some "TP53"]);
    ("Variant_Classification", [Some "Missense_Mutation"]) ].

Definition ras_no_model : DataFrame :=
  [ ("Hugo_Symbol", [Some "KRAS"]);
    ("Variant_Classification", [Some "Missense_Mutation"]) ].

Definition disk : gmap string DataFrame :=
  {[ ras_path := ras_no_model; tp53_path := tp53_df; clinical_path := clinical_df ]}.

(** A reconciled table in which no sample has a Ras mutation and one has
    a TP53 mutation. *)
Definition ras_wild_type : list Final.row :=
  reconcile [S1; S2] [lung] [tp53] [].

(** A reconciled table with a Ras mutant and a Ras wild type, and no TP53
    mutant. *)
Definition tp53_wild_type : list Final.row :=
  reconcile [S1; S2] [lung] [] [kras].

(** A reconciled table with both classes in both pathways. *)
Definition both_classes : list Final.row :=
  reconcile [S1; S2] [lung] [tp53] [kras].

(** A disk with the three tables complete. *)
Definition ras_df : DataFrame :=
  [ ("Model", [Some "S1"; Some "S1"]);
    ("Hugo_Symbol", [Some "KRAS"; Some "NRAS"]);
    ("Variant_Classification", [Some "Missense_Mutation"; Some "Missense_Mutation"]) ].

Definition full_disk : gmap string DataFrame :=
  {[ ras_path := ras_df; tp53_path := tp53_df; clinical_path := clinical_df ]}.

(** A score table none of whose samples has a clinical record on
    [full_disk]. *)
Definition strangers : list Scores.row := [S2].

End Sample.

(** * Properties *)

(** ** The left merge *)

Section merge_left_facts.
Context {L R O : Type} (lkey : L → cell) (rkey : R → cell) (row : L → option R → O).

Local Abbreviation merge := (merge_left lkey rkey row).
Local Abbreviation hits k right := (filter (λ r, k = rkey r) right).

Lemma elem_of_partners k right o :
  o ∈ partners k rkey right ↔ joined k rkey right o.
Proof.
  unfold partners. destruct (hits k right) as [|r rs] eqn:E.
  - rewrite list_elem_of_singleton. split.
    + intros -> r Hr Hk. by apply (filter_nil_not_elem_of _ _ r E).
    + destruct o as [r|]; [|done]. intros [Hr Hk].
      by destruct (filter_nil_not_elem_of _ _ r E).
  - rewrite <- E. rewrite list_elem_of_fmap. split.
    + intros (r' & -> & [? ?]%list_elem_of_filter). by split.
    + destruct o as [r'|]; simpl.
      * intros [? ?]. exists r'. split; [done|]. by apply list_elem_of_filter.
      * intros Hno. assert (Hin : r ∈ hits k right) by (rewrite E; left).
        apply list_elem_of_filter in Hin as [? ?]. naive_solver.
Qed.

Lemma partners_length k right : 1 ≤ length (partners k rkey right).
Proof.
  unfold partners. destruct (hits k right); [done|].
  rewrite length_fmap, length_cons. lia.
Qed.

Lemma merge_left_cons l left right :
  merge (l :: left) right = (row l <$> partners (lkey l) rkey right) ++ merge left right.
Proof. reflexivity. Qed.

Lemma merge_left_app left1 left2 right :
  merge (left1 ++ left2) right = merge left1 right ++ merge left2 right.
Proof. unfold merge_left. by rewrite bind_app. Qed.

(** Where an output row comes from. *)
Lemma elem_of_merge_left o left right :
  o ∈ merge left right ↔
  ∃ l r, l ∈ left ∧ joined (lkey l) rkey right r ∧ o = row l r.
Proof.
  unfold merge_left. rewrite list_elem_of_bind. split.
  - intros (l & (r & -> & Hr)%list_elem_of_fmap & Hl).
    exists l, r. by rewrite <- elem_of_partners.
  - intros (l & r & Hl & Hr & ->). exists l. split; [|done].
    apply list_elem_of_fmap. exists r. by rewrite elem_of_partners.
Qed.

(** No left row is dropped. *)
Lemma merge_left_length_ge left right : length left ≤ length (merge left right).
Proof.
  induction left as [|l left IH]; [done|].
  rewrite merge_left_cons, length_app, length_fmap, length_cons.
  pose proof (partners_length (lkey l) right). lia.
Qed.

(** A key occurs once among unique keys. *)
Lemma hits_unique k right :
  NoDup (rkey <$> right) → length (hits k right) ≤ 1.
Proof.
  induction right as [|r right IH]; [simpl; lia|].
  rewrite fmap_cons, NoDup_cons. intros [Hr Hnd].
  rewrite filter_cons. case_decide as Hk; [|auto].
  assert (E : hits k right = []); [|by rewrite E].
  destruct (hits k right) as [|r' rs] eqn:E; [done|].
  assert (Hin : r' ∈ hits k right) by (rewrite E; left).
  apply list_elem_of_filter in Hin as [Hk' Hin].
  exfalso. apply Hr. apply list_elem_of_fmap. exists r'. split; [congruence|done].
Qed.

Lemma partners_unique k right :
  NoDup (rkey <$> right) → length (partners k rkey right) = 1.
Proof.
  intros Hnd. pose proof (hits_unique k right Hnd) as Hlen. unfold partners.
  destruct (hits k right) as [|r [|r' rs]]; simpl in *; [done|done|lia].
Qed.

(** With unique keys on the right, a column of the left table comes out
    as it went in. *)
Lemma merge_left_unique_fmap {X} (p : O → X) (q : L → X) left right :
  (∀ l r, p (row l r) = q l) →
  NoDup (rkey <$> right) →
  p <$> merge left right = q <$> left.
Proof.
  intros Hp Hnd. induction left as [|l left IH]; [done|].
  rewrite merge_left_cons, fmap_app, IH, fmap_cons. f_equal.
  pose proof (partners_unique (lkey l) right Hnd) as Hlen.
  destruct (partners (lkey l) rkey right) as [|r [|r' rs]]; simpl in Hlen; try lia.
  simpl. by rewrite Hp.
Qed.

End merge_left_facts.

(** ** Reconciliation *)

Lemma elem_of_reconcile r scores clinical tp53 ras :
  r ∈ reconcile scores clinical tp53 ras ↔
  ∃ s c t m,
    s ∈ scores ∧
    joined (Scores.sample_id s) Clinical.Model clinical c ∧
    joined (c ≫= Clinical.Model) Status.Model tp53 t ∧
    joined (c ≫= Clinical.Model) Status.Model ras m ∧
    r = final_row s c t m.
Proof.
  unfold reconcile, merge_ras, merge_tp53, merge_clinical.
  rewrite <- !list_fmap_compose, list_elem_of_fmap.
  setoid_rewrite elem_of_merge_left.
  setoid_rewrite elem_of_merge_left.
  setoid_rewrite elem_of_merge_left.
  split.
  - intros (? & -> & ? & m & (? & t & (s & c & Hs & Hc & ->) & Ht & ->) & Hm & ->).
    by exists s, c, t, m.
  - intros (s & c & t & m & Hs & Hc & Ht & Hm & ->).
    exists (with_ras (with_tp53 (with_clinical s c) t) m). split; [done|].
    exists (with_tp53 (with_clinical s c) t), m. split; [|done].
    exists (with_clinical s c), t. split; [|done].
    by exists s, c.
Qed.

(** Every score row comes out at least once. *)
Lemma reconcile_length_ge scores clinical tp53 ras :
  length scores ≤ length (reconcile scores clinical tp53 ras).
Proof.
  unfold reconcile. rewrite !length_fmap.
  unfold merge_ras, merge_tp53, merge_clinical.
  etrans; [apply (merge_left_length_ge Scores.sample_id Clinical.Model with_clinical)|].
  etrans; [apply (merge_left_length_ge In14.Model Status.Model with_tp53)|].
  apply (merge_left_length_ge In16a.Model Status.Model with_ras).
Qed.

(** C1 (amended). When no two rows of the clinical table share a [Model]
    and no two rows of either mutation table share a [Model], the pipeline
    returns exactly one row per score row, in the order of the score table:
    the lengths agree and the [sample_id] column comes out as it went in, so
    an identifier that occurs once in the score table occurs once in the
    result. *)
Theorem reconcile_row_count scores clinical tp53 ras :
  NoDup (Clinical.Model <$> clinical) →
  NoDup (Status.Model <$> tp53) →
  NoDup (Status.Model <$> ras) →
  length (reconcile scores clinical tp53 ras) = length scores ∧
  Final.sample_id <$> reconcile scores clinical tp53 ras
    = Scores.sample_id <$> scores ∧
  (NoDup (Scores.sample_id <$> scores) →
   NoDup (Final.sample_id <$> reconcile scores clinical tp53 ras)).
Proof.
  intros Hc Ht Hr.
  assert (E : Final.sample_id <$> reconcile scores clinical tp53 ras
              = Scores.sample_id <$> scores).
  { unfold reconcile. rewrite <- !list_fmap_compose.
    unfold merge_ras, merge_tp53, merge_clinical.
    rewrite (merge_left_unique_fmap _ _ _ _ In16a.sample_id) by done.
    rewrite (merge_left_unique_fmap _ _ _ _ In14.sample_id) by done.
    by rewrite (merge_left_unique_fmap _ _ _ _ Scores.sample_id). }
  split; [|split; [done|by rewrite E]].
  by rewrite <- (length_fmap Final.sample_id), E, length_fmap.
Qed.

Lemma reconcile_row_count_witness :
  length (reconcile [Sample.S1; Sample.S2] [Sample.lung] [Sample.tp53] [Sample.kras]) = 2 ∧
  Final.sample_id <$>
    reconcile [Sample.S1; Sample.S2] [Sample.lung] [Sample.tp53] [Sample.kras]
    = [Some "S1"; Some "S2"] ∧
  (NoDup [Some "S1"; Some "S2"] →
   NoDup (Final.sample_id <$>
     reconcile [Sample.S1; Sample.S2] [Sample.lung] [Sample.tp53] [Sample.kras])).
Proof.
  apply (reconcile_row_count [Sample.S1; Sample.S2] [Sample.lung]
           [Sample.tp53] [Sample.kras]);
    simpl; apply NoDup_singleton.
Defined.

(** C1 as stated fails: two Ras rows of one model give two output rows for
    one score row. *)
Lemma reconcile_row_count_not_invariant :
  length (reconcile [Sample.S1] [Sample.lung] [] [Sample.kras; Sample.nras])
  ≠ length [Sample.S1].
Proof. vm_compute. lia. Qed.

(** C10. Every output row carries the [sample_id] and the four score
    values of a row of the input score table, unchanged: the merges and the
    status steps only add columns. *)
Theorem reconcile_keeps_scores scores clinical tp53 ras r :
  r ∈ reconcile scores clinical tp53 ras →
  ∃ s, s ∈ scores ∧
    Final.sample_id r = Scores.sample_id s ∧
    Final.ras_score r = Scores.ras_score s ∧
    Final.tp53_score r = Scores.tp53_score s ∧
    Final.ras_shuffle r = Scores.ras_shuffle s ∧
    Final.tp53_shuffle r = Scores.tp53_shuffle s.
Proof.
  intros (s & c & t & m & Hs & _ & _ & _ & ->)%elem_of_reconcile.
  by exists s.
Qed.

Lemma reconcile_keeps_scores_witness :
  ∃ s, s ∈ [Sample.S1; Sample.S2] ∧
    Some "S2" = Scores.sample_id s ∧
    0.125%float = Scores.ras_score s ∧
    0.75%float = Scores.tp53_score s ∧
    0.625%float = Scores.ras_shuffle s ∧
    0.5%float = Scores.tp53_shuffle s.
Proof.
  apply (reconcile_keeps_scores [Sample.S1; Sample.S2] [Sample.lung]
           [Sample.tp53] [Sample.kras] (final_row Sample.S2 None None None)).
  vm_compute. right. left.
Defined.

(** ** The status columns *)

Lemma status_of_Some g : status_of (Some g) = OInt 1.
Proof. reflexivity. Qed.

Lemma status_of_None : status_of None = OInt 0.
Proof. reflexivity. Qed.

(** X6. Both status columns hold 0 or 1 and nothing else. *)
Lemma status_is_boolean scores clinical tp53 ras r :
  r ∈ reconcile scores clinical tp53 ras →
  (Final.tp53_status r = OInt 0 ∨ Final.tp53_status r = OInt 1) ∧
  (Final.ras_status r = OInt 0 ∨ Final.ras_status r = OInt 1).
Proof.
  intros (s & c & t & m & _ & _ & _ & _ & ->)%elem_of_reconcile. simpl.
  split.
  - destruct (t ≫= Status.Hugo_Symbol); [right|left]; done.
  - destruct (m ≫= Status.Hugo_Symbol); [right|left]; done.
Qed.

(** One pathway: what the status and the displayed symbol are, from what
    the merge paired the row with. *)
Lemma status_of_joined table k o :
  Forall names_gene table →
  joined k Status.Model table o →
  (status_of (o ≫= Status.Hugo_Symbol) = OInt 1 ↔ in_table table k) ∧
  (status_of (o ≫= Status.Hugo_Symbol) = OInt 0 ↔ ¬ in_table table k) ∧
  (fillna_wild_type (o ≫= Status.Hugo_Symbol) = Some "wild-type"
     ↔ ¬ in_table table k) ∧
  (in_table table k →
   ∃ m, m ∈ table ∧ k = Status.Model m ∧
        fillna_wild_type (o ≫= Status.Hugo_Symbol) = Status.Hugo_Symbol m).
Proof.
  intros Hg Hj. destruct o as [m|]; simpl in *.
  - destruct Hj as [Hm Hk].
    assert (Hin : in_table table k) by by exists m.
    rewrite Forall_forall in Hg. destruct (Hg m Hm) as [[g Eg] Hwt].
    rewrite Eg in *. simpl. rewrite status_of_Some.
    repeat split; try done; try (intros; by exists m); naive_solver.
  - assert (Hout : ¬ in_table table k) by (intros (m & ? & ?); naive_solver).
    rewrite status_of_None. repeat split; try done; naive_solver.
Qed.

(** C3 (amended). Provided every row of the two mutation tables carries a
    gene symbol, and none carries the literal ["wild-type"]: for every
    reconciled row, [ras_status] is 1 exactly when the row's [Model] is the
    [Model] of at least one row of the Ras table and 0 otherwise; the
    displayed Ras symbol is ["wild-type"] exactly when there is no such row
    and otherwise the symbol of one of them.  The same holds for TP53. *)
Theorem status_iff_in_table scores clinical tp53 ras r :
  Forall names_gene tp53 →
  Forall names_gene ras →
  r ∈ reconcile scores clinical tp53 ras →
  ((Final.ras_status r = OInt 1 ↔ in_table ras (Final.Model r)) ∧
   (Final.ras_status r = OInt 0 ↔ ¬ in_table ras (Final.Model r)) ∧
   (Final.Hugo_Symbol_ras r = Some "wild-type" ↔ ¬ in_table ras (Final.Model r)) ∧
   (in_table ras (Final.Model r) →
    ∃ m, m ∈ ras ∧ Final.Model r = Status.Model m ∧
         Final.Hugo_Symbol_ras r = Status.Hugo_Symbol m)) ∧
  ((Final.tp53_status r = OInt 1 ↔ in_table tp53 (Final.Model r)) ∧
   (Final.tp53_status r = OInt 0 ↔ ¬ in_table tp53 (Final.Model r)) ∧
   (Final.Hugo_Symbol_tp53 r = Some "wild-type" ↔ ¬ in_table tp53 (Final.Model r)) ∧
   (in_table tp53 (Final.Model r) →
    ∃ m, m ∈ tp53 ∧ Final.Model r = Status.Model m ∧
         Final.Hugo_Symbol_tp53 r = Status.Hugo_Symbol m)).
Proof.
  intros Hgt Hgr (s & c & t & m & _ & _ & Ht & Hm & ->)%elem_of_reconcile.
  split.
  - exact (status_of_joined ras _ m Hgr Hm).
  - exact (status_of_joined tp53 _ t Hgt Ht).
Qed.

Lemma names_gene_intro g k :
  g ≠ "wild-type" → names_gene (Status.Row (Some g) k).
Proof. intros Hg. split; [by exists g|]. simpl. congruence. Qed.

Lemma status_iff_in_table_witness :
  Final.ras_status (final_row Sample.S1 (Some Sample.lung) (Some Sample.tp53)
                      (Some Sample.kras)) = OInt 1
  ↔ in_table [Sample.kras; Sample.nras] (Some "S1").
Proof.
  apply (status_iff_in_table [Sample.S1; Sample.S2] [Sample.lung]
           [Sample.tp53] [Sample.kras; Sample.nras]
           (final_row Sample.S1 (Some Sample.lung) (Some Sample.tp53)
              (Some Sample.kras))).
  - repeat constructor; apply names_gene_intro; discriminate.
  - repeat constructor; apply names_gene_intro; discriminate.
  - vm_compute. left.
Defined.

(** C3 as stated fails: the model of this sample appears in the Ras table,
    in a row whose gene field is empty, and [ras_status] is 0. *)
Lemma status_iff_in_table_needs_symbol :
  ∃ r, r ∈ reconcile [Sample.S1; Sample.S2] [Sample.lung] []
             [Sample.hras; Sample.unnamed] ∧
       in_table [Sample.hras; Sample.unnamed] (Final.Model r) ∧
       Final.ras_status r = OInt 0 ∧
       Final.Hugo_Symbol_ras r = Some "wild-type".
Proof.
  exists (final_row Sample.S1 (Some Sample.lung) None (Some Sample.unnamed)).
  split; [vm_compute; left|]. split; [|done].
  exists Sample.unnamed. split; [right; left|done].
Qed.

(** ** Samples without a clinical record *)

(** A score row that the clinical table does not resolve keeps a missing
    [Model] and a missing [Histology]. *)
Lemma unresolved_sample_is_null scores clinical tp53 ras r :
  r ∈ reconcile scores clinical tp53 ras →
  (∀ c, c ∈ clinical → Final.sample_id r ≠ Clinical.Model c) →
  Final.Model r = None ∧ Final.Histology r = None.
Proof.
  intros (s & c & t & m & _ & Hc & _ & _ & ->)%elem_of_reconcile Hno.
  destruct c as [c|]; [|done]. destruct Hc as [Hin Hk].
  by destruct (Hno c Hin).
Qed.

(** C4 (amended). A score row whose [sample_id] is the [Model] of no
    clinical row comes out with [Model] and [Histology] missing, and with
    both statuses 0 whatever the mutation tables say about its identifier,
    provided no mutation row with a missing [Model] carries a gene symbol:
    a missing [Model] is joined to the mutation rows whose [Model] is
    missing too. *)
Theorem unresolved_sample_defaults scores clinical tp53 ras r :
  r ∈ reconcile scores clinical tp53 ras →
  (∀ c, c ∈ clinical → Final.sample_id r ≠ Clinical.Model c) →
  (∀ m, m ∈ tp53 → Status.Model m = None → Status.Hugo_Symbol m = None) →
  (∀ m, m ∈ ras → Status.Model m = None → Status.Hugo_Symbol m = None) →
  Final.Model r = None ∧ Final.Histology r = None ∧
  Final.tp53_status r = OInt 0 ∧ Final.ras_status r = OInt 0.
Proof.
  intros Hr Hno Ht Hm.
  destruct (unresolved_sample_is_null _ _ _ _ _ Hr Hno) as [EM EH].
  apply elem_of_reconcile in Hr as (s & c & t & m & _ & _ & Jt & Jm & ->).
  simpl in EM. rewrite EM in Jt, Jm. simpl.
  repeat split; try done.
  - destruct t as [t|]; [|done]. destruct Jt as [Hin Hk]. simpl.
    by rewrite (Ht t Hin).
  - destruct m as [m|]; [|done]. destruct Jm as [Hin Hk]. simpl.
    by rewrite (Hm m Hin).
Qed.

Lemma unresolved_sample_defaults_witness :
  let r := final_row Sample.S2 None None None in
  Final.Model r = None ∧ Final.Histology r = None ∧
  Final.tp53_status r = OInt 0 ∧ Final.ras_status r = OInt 0.
Proof.
  apply (unresolved_sample_defaults [Sample.S1; Sample.S2] [Sample.lung]
           [Sample.tp53] [Sample.kras; Status.Row (Some "NRAS") (Some "S2")]).
  - vm_compute. right. left.
  - intros c ->%list_elem_of_singleton. discriminate.
  - intros m ->%list_elem_of_singleton. discriminate.
  - intros m [-> | ->%list_elem_of_singleton]%elem_of_cons; discriminate.
Defined.

(** C4 as stated fails: the sample has no clinical record, and a Ras row
    whose [Model] field is empty gives it [ras_status] 1. *)
Lemma unresolved_sample_joins_orphan :
  ∃ r, r ∈ reconcile [Sample.S1; Sample.S2] [Sample.lung] []
             [Sample.kras; Sample.orphan] ∧
       (∀ c, c ∈ [Sample.lung] → Final.sample_id r ≠ Clinical.Model c) ∧
       Final.Model r = None ∧
       Final.ras_status r = OInt 1.
Proof.
  exists (final_row Sample.S2 None None (Some Sample.orphan)).
  split; [vm_compute; right; left|]. split; [|done].
  intros c ->%list_elem_of_singleton. discriminate.
Qed.

(** ** The output, row by row *)

Lemma list_bind_bind {A B C} (f : A → list B) (g : B → list C) (l : list A) :
  (l ≫= f) ≫= g = l ≫= λ x, f x ≫= g.
Proof.
  induction l as [|x l IH]; [done|].
  by rewrite !bind_cons, bind_app, IH.
Qed.

Lemma list_fmap_of_bind {A B C} (f : A → list B) (g : B → C) (l : list A) :
  g <$> (l ≫= f) = l ≫= λ x, g <$> f x.
Proof.
  induction l as [|x l IH]; [done|].
  by rewrite !bind_cons, fmap_app, IH.
Qed.

Lemma list_fmap_as_bind {A B} (f : A → B) (l : list A) :
  f <$> l = l ≫= λ x, [f x].
Proof. induction l as [|x l IH]; [done|]. by rewrite fmap_cons, bind_cons, IH. Qed.

Lemma list_bind_replicate {A B} (l : list A) (n : nat) (v : B) :
  (l ≫= λ _, replicate n v) = replicate (length l * n) v.
Proof.
  induction l as [|x l IH]; [done|].
  by rewrite bind_cons, IH, length_cons, <- replicate_add.
Qed.

(** The three merges and the status steps as one comprehension: the rows
    of the output are, for each score row in order, its clinical partners,
    and for each of those the TP53 partners and the Ras partners of the
    resolved model. *)
Lemma reconcile_comprehension scores clinical tp53 ras :
  reconcile scores clinical tp53 ras =
  s ← scores;
  c ← partners (Scores.sample_id s) Clinical.Model clinical;
  t ← partners (c ≫= Clinical.Model) Status.Model tp53;
  m ← partners (c ≫= Clinical.Model) Status.Model ras;
  [final_row s c t m].
Proof.
  unfold reconcile, merge_ras, merge_tp53, merge_clinical, merge_left.
  rewrite <- !list_fmap_compose.
  rewrite !list_bind_bind, list_fmap_of_bind.
  apply list_bind_ext; [|done]. intros s.
  rewrite list_fmap_bind, list_fmap_of_bind.
  apply list_bind_ext; [|done]. intros c. cbv beta delta [compose].
  rewrite list_fmap_bind, list_fmap_of_bind.
  apply list_bind_ext; [|done]. intros t. cbv beta delta [compose].
  rewrite <- list_fmap_compose. by rewrite list_fmap_as_bind.
Qed.

Lemma reconcile_one s clinical tp53 ras :
  reconcile [s] clinical tp53 ras =
  c ← partners (Scores.sample_id s) Clinical.Model clinical;
  t ← partners (c ≫= Clinical.Model) Status.Model tp53;
  m ← partners (c ≫= Clinical.Model) Status.Model ras;
  [final_row s c t m].
Proof. by rewrite reconcile_comprehension, bind_singleton. Qed.

(** The output is the concatenation of the blocks of the score rows. *)
Lemma reconcile_blocks scores clinical tp53 ras :
  reconcile scores clinical tp53 ras =
  s ← scores; reconcile [s] clinical tp53 ras.
Proof.
  rewrite reconcile_comprehension. apply list_bind_ext; [|done].
  intros s. by rewrite reconcile_one.
Qed.

Lemma partners_hits {R} (k : cell) (rkey : R → cell) (table : list R) :
  filter (λ r, k = rkey r) table ≠ [] →
  partners k rkey table = Some <$> filter (λ r, k = rkey r) table.
Proof. unfold partners. by destruct (filter _ table). Qed.

(** A column that does not depend on the partners is constant on a
    block. *)
Lemma fmap_pairs_const {A B C D} (f : C → D) (g : A → B → C) (v : D)
    (l1 : list A) (l2 : list B) :
  (∀ a b, f (g a b) = v) →
  f <$> (a ← l1; b ← l2; [g a b]) = replicate (length l1 * length l2) v.
Proof.
  intros Hv. rewrite list_fmap_of_bind.
  rewrite <- list_bind_replicate. apply list_bind_ext; [|done]. intros a.
  rewrite list_fmap_of_bind. simpl.
  rewrite <- (Nat.mul_1_r (length l2)), <- list_bind_replicate.
  apply list_bind_ext; [|done]. intros b. simpl. by rewrite Hv.
Qed.

(** C2 (amended). The mutation joins keep every match.  For a score row
    that one clinical row resolves, the output holds one row for each pair
    of a TP53 partner and a Ras partner of the model, in file order, where
    the partners of a model in a table are all the rows of the table with
    this [Model] (or one missing partner when there is none).  So every
    matching mutation row sets the displayed symbol of output rows of its
    own. *)
Theorem mutation_join_keeps_every_match s c clinical tp53 ras :
  filter (λ c', Scores.sample_id s = Clinical.Model c') clinical = [c] →
  length (reconcile [s] clinical tp53 ras)
    = length (partners (Clinical.Model c) Status.Model tp53)
      * length (partners (Clinical.Model c) Status.Model ras) ∧
  Final.Hugo_Symbol_ras <$> reconcile [s] clinical tp53 ras
    = (_ ← partners (Clinical.Model c) Status.Model tp53;
       (λ m, fillna_wild_type (m ≫= Status.Hugo_Symbol))
         <$> partners (Clinical.Model c) Status.Model ras) ∧
  Final.Hugo_Symbol_tp53 <$> reconcile [s] clinical tp53 ras
    = (t ← partners (Clinical.Model c) Status.Model tp53;
       replicate (length (partners (Clinical.Model c) Status.Model ras))
         (fillna_wild_type (t ≫= Status.Hugo_Symbol))) ∧
  (∀ table : list Status.row,
     filter (λ m, Clinical.Model c = Status.Model m) table ≠ [] →
     partners (Clinical.Model c) Status.Model table
       = Some <$> filter (λ m, Clinical.Model c = Status.Model m) table).
Proof.
  intros Hc.
  assert (E : reconcile [s] clinical tp53 ras =
    t ← partners (Clinical.Model c) Status.Model tp53;
    m ← partners (Clinical.Model c) Status.Model ras;
    [final_row s (Some c) t m]).
  { rewrite reconcile_one, partners_hits, Hc by (by rewrite Hc).
    by rewrite fmap_cons, fmap_nil, bind_singleton. }
  rewrite E. split_and!.
  - rewrite <- (length_fmap (λ _, ())).
    rewrite (fmap_pairs_const _ _ ()) by done. by rewrite length_replicate.
  - rewrite list_fmap_of_bind. apply list_bind_ext; [|done]. intros t.
    rewrite list_fmap_of_bind. by rewrite list_fmap_as_bind.
  - rewrite list_fmap_of_bind. apply list_bind_ext; [|done]. intros t.
    rewrite list_fmap_of_bind.
    rewrite <- (Nat.mul_1_r (length _)), <- list_bind_replicate. done.
  - intros table. apply partners_hits.
Qed.

Lemma mutation_join_keeps_every_match_witness :
  Final.Hugo_Symbol_ras <$>
    reconcile [Sample.S1] [Sample.lung] [Sample.tp53] [Sample.kras; Sample.nras]
  = (_ ← partners (Some "S1") Status.Model [Sample.tp53];
     (λ m, fillna_wild_type (m ≫= Status.Hugo_Symbol))
       <$> partners (Some "S1") Status.Model [Sample.kras; Sample.nras]).
Proof.
  apply (mutation_join_keeps_every_match Sample.S1 Sample.lung [Sample.lung]
           [Sample.tp53] [Sample.kras; Sample.nras]).
  reflexivity.
Defined.

(** C2 as stated fails: the join is not first-match.  One sample with two
    Ras rows comes out in two rows, the second carrying the symbol of the
    second Ras row. *)
Lemma mutation_join_not_first_match :
  Final.Hugo_Symbol_ras <$>
    reconcile [Sample.S1] [Sample.lung] [] [Sample.kras; Sample.nras]
  = [Some "KRAS"; Some "NRAS"].
Proof. reflexivity. Qed.

(** C6 (amended). Rows of the clinical table that share a [Model] do not
    overwrite one another: a score row with this identifier is joined to
    each of them, in the order of the clinical table, and each contributes
    its histology to output rows of its own, one per pair of a TP53 partner
    and a Ras partner of the model. *)
Theorem clinical_join_keeps_every_match s clinical tp53 ras :
  filter (λ c, Scores.sample_id s = Clinical.Model c) clinical ≠ [] →
  Final.Histology <$> reconcile [s] clinical tp53 ras =
  c ← filter (λ c, Scores.sample_id s = Clinical.Model c) clinical;
  replicate
    (length (partners (Scores.sample_id s) Status.Model tp53)
     * length (partners (Scores.sample_id s) Status.Model ras))
    (Clinical.Histology c).
Proof.
  intros Hc. rewrite reconcile_one, partners_hits by done.
  rewrite list_fmap_bind, list_fmap_of_bind.
  apply Forall_bind_ext, Forall_forall. intros c [Hk _]%list_elem_of_filter.
  cbv beta delta [compose]. simpl. rewrite <- Hk.
  by apply fmap_pairs_const.
Qed.

Lemma clinical_join_keeps_every_match_witness :
  Final.Histology <$>
    reconcile [Sample.S1] [Sample.lung; Sample.breast] [Sample.tp53] [Sample.kras]
  = [Some "Lung"; Some "Breast"].
Proof.
  apply (clinical_join_keeps_every_match Sample.S1 [Sample.lung; Sample.breast]
           [Sample.tp53] [Sample.kras]).
  discriminate.
Defined.

(** C6 as stated fails: with two clinical rows for one model the earlier
    histology is kept next to the later one, and the sample comes out
    twice. *)
Lemma clinical_join_duplicates_rows :
  Final.Histology <$>
    reconcile [Sample.S1] [Sample.lung; Sample.breast] [] []
  = [Some "Lung"; Some "Breast"].
Proof. reflexivity. Qed.

(** ** The histology rewrite *)

Lemma getattr_Ok df name c : getattr df name = Ok c ↔ column name df = Some c.
Proof. unfold getattr. destruct (column name df); naive_solver. Qed.

Lemma column_loc_set mask name v df :
  column name (loc_set mask name v df) = mask_assign mask v <$> column name df.
Proof.
  induction df as [|[n c] df IH]; [done|].
  unfold loc_set in *. rewrite fmap_cons. simpl.
  destruct (decide (n = name)) as [->|Hn]; simpl.
  - by rewrite decide_True.
  - by rewrite decide_False.
Qed.

Lemma column_loc_set_ne mask name name' v df :
  name' ≠ name → column name' (loc_set mask name v df) = column name' df.
Proof.
  intros Hne. induction df as [|[n c] df IH]; [done|].
  unfold loc_set in *. rewrite fmap_cons. simpl.
  destruct (decide (n = name)) as [->|Hn]; simpl.
  - by rewrite !decide_False by done.
  - destruct (decide (n = name')); [done|]. apply IH.
Qed.



Lemma string_dtype_strings (hs : list string) : string_dtype (Some <$> hs) = true.
Proof.
  destruct hs as [|h hs]; [done|].
  unfold string_dtype. rewrite fmap_cons.
  apply bool_decide_eq_true. by left.
Qed.

Lemma str_contains_strings pat (hs : list string) :
  str_contains pat (Some <$> hs) = Ok (Some <$> (contains pat <$> hs)).
Proof.
  unfold str_contains. rewrite string_dtype_strings. f_equal.
  induction hs as [|h hs IH]; [done|]. simpl. by f_equal.
Qed.

Lemma bool_indexer_bools (bs : list bool) : bool_indexer (Some <$> bs) = Ok bs.
Proof. induction bs as [|b bs IH]; [done|]. csimpl. by rewrite IH. Qed.

Lemma bool_indexer_missing mask : None ∈ mask → raises (bool_indexer mask).
Proof.
  induction mask as [|[b|] mask IH]; intros Hin.
  - by apply elem_of_nil in Hin.
  - apply elem_of_cons in Hin as [?|Hin]; [done|].
    destruct (IH Hin) as [e He]. exists e. simpl. by rewrite He.
  - by eexists.
Qed.

(** [contains] is the substring test. *)
Lemma prefix_app (pat s : string) :
  String.prefix pat s = true ↔ ∃ b, s = pat +:+ b.
Proof.
  revert s. induction pat as [|c pat IH]; intros s.
  - split; [intros _; by exists s|]. by destruct s.
  - destruct s as [|c' s]; simpl.
    + split; [done|]. by intros [b ?].
    + destruct (Ascii.ascii_dec c c') as [->|Hne].
      * rewrite IH. split; intros [b Hb]; exists b.
        -- simpl. by rewrite Hb.
        -- simpl in Hb. by injection Hb.
      * split; [done|]. intros [b Hb]. simpl in Hb. injection Hb as -> _. done.
Qed.

Lemma contains_nil pat : contains pat "" = String.prefix pat "".
Proof. simpl. apply orb_false_r. Qed.

Lemma contains_cons pat c s :
  contains pat (String c s) = String.prefix pat (String c s) || contains pat s.
Proof. reflexivity. Qed.

Lemma contains_substring (pat s : string) :
  contains pat s = true ↔ ∃ a b, s = a +:+ pat +:+ b.
Proof.
  induction s as [|c s IH].
  - rewrite contains_nil, prefix_app. split.
    + intros [b Hb]. by exists "", b.
    + intros (a & b & Hab). destruct a; [by exists b|done].
  - rewrite contains_cons, orb_true_iff, prefix_app, IH. split.
    + intros [[b Hb] | (a & b & Hab)].
      * by exists "", b.
      * exists (String c a), b. simpl. by rewrite Hab.
    + intros (a & b & Hab). destruct a as [|c' a].
      * left. by exists b.
      * right. exists a, b. simpl in Hab. by injection Hab.
Qed.



Lemma mask_assign_normalized (hs : list string) :
  mask_assign (contains "Other" <$> hs) (Some "Other") (Some <$> hs)
  = Some <$> (normalized <$> hs).
Proof.
  unfold mask_assign, normalized.
  induction hs as [|h hs IH]; [done|]. csimpl. rewrite IH.
  by destruct (contains "Other" h).
Qed.


(** The rewrite on a histology column of strings. *)
Lemma normalize_histology_strings df (hs : list string) :
  column "Histology" df = Some (Some <$> hs) →
  normalize_histology df
  = Ok (loc_set (contains "Other" <$> hs) "Histology" (Some "Other") df).
Proof.
  intros Hcol. unfold normalize_histology, getattr. rewrite Hcol. simpl.
  rewrite str_contains_strings. simpl. by rewrite bool_indexer_bools.
Qed.

Lemma all_present (c : list (option string)) :
  None ∉ c → ∃ hs : list string, c = Some <$> hs.
Proof.
  induction c as [|[h|] c IH]; intros Hno.
  - by exists [].
  - destruct IH as [hs ->]; [by intros ?; apply Hno; right|]. by exists (h :: hs).
  - destruct Hno. left.
Qed.

Lemma normalize_histology_Ok_inv df df' :
  normalize_histology df = Ok df' →
  ∃ hs : list string,
    column "Histology" df = Some (Some <$> hs) ∧
    df' = loc_set (contains "Other" <$> hs) "Histology" (Some "Other") df.
Proof.
  intros Hok. destruct (column "Histology" df) as [c|] eqn:Ecol.
  - destruct (decide (None ∈ c)) as [Hin|Hno].
    + exfalso. unfold normalize_histology, getattr, str_contains in Hok.
      rewrite Ecol in Hok. simpl in Hok.
      destruct (string_dtype c); simpl in Hok; [|done].
      destruct (bool_indexer_missing (map (option_map (contains "Other")) c))
        as [e He]; [apply list_elem_of_fmap; by exists None|].
      unfold mbind, result_bind, bind in Hok. by rewrite He in Hok.
    + destruct (all_present c Hno) as [hs ->]. exists hs. split; [done|].
      rewrite (normalize_histology_strings _ _ Ecol) in Hok. congruence.
  - unfold normalize_histology, getattr in Hok. by rewrite Ecol in Hok.
Qed.




(** C9. The rewrite of In[11] returns only on a histology column without a
    missing value: one missing histology makes the whole step raise, no row
    is rewritten and none is left as it was. *)
Theorem normalize_histology_needs_every_value df col :
  getattr df "Histology" = Ok col →
  (None ∈ col → raises (normalize_histology df)) ∧
  (Forall is_Some col → succeeds (normalize_histology df)).
Proof.
  intros Hget. split.
  - intros Hin. unfold normalize_histology. rewrite Hget. simpl.
    unfold str_contains. destruct (string_dtype col); [|by eexists].
    simpl. destruct (bool_indexer_missing (map (option_map (contains "Other")) col))
      as [e He].
    + apply list_elem_of_fmap. by exists None.
    + exists e. unfold mbind, result_bind, bind. by rewrite He.
  - intros Hall. apply getattr_Ok in Hget.
    assert (∃ hs : list string, col = Some <$> hs) as [hs ->].
    { clear Hget. induction Hall as [|x col [h ->] _ [hs ->]].
      - by exists [].
      - by exists (h :: hs). }
    eexists. by apply normalize_histology_strings.
Qed.

Lemma normalize_histology_needs_every_value_witness :
  raises (normalize_histology Sample.clinical_gap).
Proof.
  apply (normalize_histology_needs_every_value Sample.clinical_gap
           [Some "Other"; None]).
  - reflexivity.
  - right. left.
Defined.

(** ** The metrics loop *)

Section loop_facts.
Context {curve scalar : Type} `{!Sklearn curve scalar}.

Lemma call_writes_only {A} idx (r : result A) :
  writes_only idx (call r : stmt curve scalar A).
Proof. intros st st' r' [= <- _] d j _. done. Qed.

Lemma setitem_writes_only idx d (v : metric curve scalar) :
  writes_only idx (setitem d idx v).
Proof.
  intros st st' r [= <- _] d' j Hj. apply lookup_insert_ne. congruence.
Qed.

Lemma bind_writes_only {A B} idx (m : stmt curve scalar A)
    (k : A → stmt curve scalar B) :
  writes_only idx m → (∀ a, writes_only idx (k a)) →
  writes_only idx (stmt_bind m k).
Proof.
  intros Hm Hk st st' r. unfold stmt_bind.
  destruct (m st) as [st1 [a|e]] eqn:Em.
  - intros Ek d j Hj. rewrite (Hk a _ _ _ Ek d j Hj). by eapply Hm.
  - intros [= <- _] d j Hj. by eapply Hm.
Qed.

Lemma evaluate_writes_only scores_df idx status score shuff :
  writes_only idx (evaluate scores_df idx status score shuff).
Proof.
  unfold evaluate.
  repeat first
    [ apply bind_writes_only; [|intros ?]
    | apply call_writes_only
    | apply setitem_writes_only ].
Qed.

(** A failing call of [roc_auc_score] on the real scores ends the
    iteration with an exception. *)
Lemma evaluate_raises scores_df idx status score shuff st :
  raises (roc_auc_score (status <$> scores_df) (score <$> scores_df)) →
  ∃ st' e, evaluate scores_df idx status score shuff st = (st', Raise e).
Proof.
  intros [e He]. unfold evaluate, stmt_bind, call, setitem.
  destruct (roc_curve _ _) as [roc|e1]; [|by eauto].
  destruct (precision_recall_curve _ _) as [pr|e2]; [|by eauto].
  rewrite He. by eauto.
Qed.

(** C7 (amended). When [roc_auc_score] rejects labels of a single class,
    a Ras label vector of a single class makes the loop raise during the Ras
    iteration.  The exception is not caught: it leaves the loop, and the
    TP53 iteration does not run, so none of the dictionaries receives the
    key 1. *)
Theorem degenerate_labels_abort_loop (scores_df : list Final.row) :
  (∀ y_true y_score, single_class y_true = true →
                     raises (roc_auc_score y_true y_score)) →
  single_class (Final.ras_status <$> scores_df) = true →
  ∃ st e,
    metrics_loop scores_df ∅ = (st, Raise e) ∧
    ∀ d, st !! (d, 1) = None.
Proof.
  intros Hlib Hone. unfold metrics_loop, for_each.
  destruct (evaluate_raises scores_df 0 Final.ras_status Final.ras_score
              Final.ras_shuffle ∅ (Hlib _ _ Hone)) as (st & e & Hev).
  exists st, e. unfold stmt_bind at 1. rewrite Hev. split; [done|].
  intros d. by rewrite (evaluate_writes_only _ _ _ _ _ _ _ _ Hev d 1).
Qed.

(** An exception in the TP53 iteration leaves the Ras metrics in the
    dictionaries. *)
Lemma late_failure_keeps_ras_metrics (scores_df : list Final.row) st0 st e :
  evaluate scores_df 0 Final.ras_status Final.ras_score Final.ras_shuffle ∅
    = (st0, Ok ()) →
  evaluate scores_df 1 Final.tp53_status Final.tp53_score Final.tp53_shuffle st0
    = (st, Raise e) →
  metrics_loop scores_df ∅ = (st, Raise e) ∧ ∀ d, st !! (d, 0) = st0 !! (d, 0).
Proof.
  intros H0 H1. unfold metrics_loop, for_each, stmt_bind.
  rewrite H0, H1. split; [done|].
  intros d. by apply (evaluate_writes_only _ _ _ _ _ _ _ _ H1).
Qed.

End loop_facts.

Lemma degenerate_labels_abort_loop_witness :
  ∃ st e,
    @metrics_loop unit unit sklearn_outcomes Sample.ras_wild_type ∅ = (st, Raise e) ∧
    ∀ d, st !! (d, 1) = None.
Proof.
  apply (@degenerate_labels_abort_loop unit unit sklearn_outcomes
           Sample.ras_wild_type).
  - intros y_true y_score Hone. simpl. rewrite Hone. by eexists.
  - reflexivity.
Defined.

(** C7 as stated fails: here the Ras labels are all 0 and the TP53 labels
    are of both classes; the loop ends with the exception of the Ras
    iteration and holds no TP53 metric. *)
Lemma degenerate_ras_labels_stop_tp53 :
  single_class (Final.ras_status <$> Sample.ras_wild_type) = true ∧
  single_class (Final.tp53_status <$> Sample.ras_wild_type) = false ∧
  (@metrics_loop unit unit sklearn_outcomes Sample.ras_wild_type ∅).2
    = Raise (ValueError
        "Only one class present in y_true. ROC AUC score is not defined in that case.") ∧
  (@metrics_loop unit unit sklearn_outcomes Sample.ras_wild_type ∅).1
    !! ("auroc_pdx", 1) = None.
Proof. vm_compute. done. Qed.

(** ** Tables with a column missing *)

Lemma read_table_present (fs : gmap string DataFrame) path df :
  fs !! path = Some df → read_table fs path = Ok df.
Proof. unfold read_table. by intros ->. Qed.

(** In[4]-In[6] raise on the first of the three labels that the table
    lacks, and name that label. *)
Lemma inspect_status_cases status_df :
  inspect_status status_df = Ok () ∧
    (∀ n, n ∈ ["Model"; "Hugo_Symbol"; "Variant_Classification"] →
          is_Some (column n status_df))
  ∨ ∃ n, n ∈ ["Model"; "Hugo_Symbol"; "Variant_Classification"] ∧
         column n status_df = None ∧
         inspect_status status_df = Raise (AttributeError n).
Proof.
  unfold inspect_status, getattr.
  destruct (column "Model" status_df) eqn:E1; simpl;
    [|right; exists "Model"; set_solver].
  destruct (column "Hugo_Symbol" status_df) eqn:E2; simpl;
    [|right; exists "Hugo_Symbol"; set_solver].
  destruct (column "Variant_Classification" status_df) eqn:E3; simpl;
    [|right; exists "Variant_Classification"; set_solver].
  left. split; [done|]. intros n Hn.
  repeat (apply elem_of_cons in Hn as [->|Hn]; [by eexists|]).
  by apply elem_of_nil in Hn.
Qed.

(** What the histology rewrite can raise, and what it leaves alone. *)
Lemma normalize_histology_error df e :
  normalize_histology df = Raise e →
  (column "Histology" df = None ∧ e = AttributeError "Histology") ∨
  (is_Some (column "Histology" df) ∧ ∀ path, e ≠ FileNotFoundError path).
Proof.
  unfold normalize_histology, getattr, str_contains.
  destruct (column "Histology" df) as [c|]; simpl; [|intros [= <-]; by left].
  intros He. right. split; [by eexists|]. intros path ->.
  destruct (string_dtype c); simpl in He; [|done].
  induction (map (option_map (contains "Other")) c) as [|[b|] mask IH];
    simpl in He; [done| |done].
  destruct (bool_indexer mask); simpl in *; [done|]. by apply IH.
Qed.

Lemma normalize_histology_other_columns df df' name :
  normalize_histology df = Ok df' →
  name ≠ "Histology" → column name df' = column name df.
Proof.
  unfold normalize_histology, getattr, str_contains.
  destruct (column "Histology" df) as [c|]; simpl; [|done].
  destruct (string_dtype c); simpl; [|done].
  destruct (bool_indexer _) as [rows|]; simpl; [|done].
  intros [= <-] Hne. by apply column_loc_set_ne.
Qed.

Section script_facts.
Context {curve scalar : Type} `{!Sklearn curve scalar}.

Lemma script_stops (fs : gmap string DataFrame) scores e :
  prepare fs scores = Raise e →
  outcome (script fs scores) = Raise e ∧ saved (script fs scores) = [].
Proof. unfold script. by intros ->. Qed.

(** C8 (amended). No loader checks the columns of what it reads:
    [read_table] returns the table as it is, whatever its header.  When a
    status table lacks one of [Model], [Hugo_Symbol],
    [Variant_Classification], or the clinical table lacks [Model] or
    [Histology], the run ends with an exception raised by a statement that
    reads the table: [AttributeError] with the name of an absent column of a
    status table, [AttributeError] with ["Histology"], or, when the clinical
    table lacks [Model], [KeyError] with ["Model"] at the merge unless the
    histology rewrite has raised before.  The exception names no file, and
    the run saves no figure. *)
Theorem missing_column_stops_run (fs : gmap string DataFrame) scores
    ras_df tp53_df clin_df :
  fs !! ras_path = Some ras_df →
  fs !! tp53_path = Some tp53_df →
  fs !! clinical_path = Some clin_df →
  (∃ n, n ∈ ["Model"; "Hugo_Symbol"; "Variant_Classification"] ∧
        (column n ras_df = None ∨ column n tp53_df = None)) ∨
  (∃ n, n ∈ ["Model"; "Histology"] ∧ column n clin_df = None) →
  load_status fs ras_path = Ok ras_df ∧
  load_status fs tp53_path = Ok tp53_df ∧
  read_table fs clinical_path = Ok clin_df ∧
  ∃ e,
    outcome (script fs scores) = Raise e ∧
    saved (script fs scores) = [] ∧
    (∀ path, e ≠ FileNotFoundError path) ∧
    ((∃ n, n ∈ ["Model"; "Hugo_Symbol"; "Variant_Classification"] ∧
           (column n ras_df = None ∨ column n tp53_df = None) ∧
           e = AttributeError n) ∨
     (column "Histology" clin_df = None ∧ e = AttributeError "Histology") ∨
     (column "Model" clin_df = None ∧
      (e = KeyError "Model" ∨ normalize_histology clin_df = Raise e))).
Proof.
  intros Hras Htp53 Hclin Hmissing.
  pose proof (read_table_present _ _ _ Hras) as Rras.
  pose proof (read_table_present _ _ _ Htp53) as Rtp53.
  pose proof (read_table_present _ _ _ Hclin) as Rclin.
  split_and!; try done.
  cut (∃ e, prepare fs scores = Raise e ∧
        (∀ path, e ≠ FileNotFoundError path) ∧
        ((∃ n, n ∈ ["Model"; "Hugo_Symbol"; "Variant_Classification"] ∧
               (column n ras_df = None ∨ column n tp53_df = None) ∧
               e = AttributeError n) ∨
         (column "Histology" clin_df = None ∧ e = AttributeError "Histology") ∨
         (column "Model" clin_df = None ∧
          (e = KeyError "Model" ∨ normalize_histology clin_df = Raise e)))).
  { intros (e & He & ? & ?). exists e.
    destruct (script_stops _ _ _ He). by split_and!. }
  unfold prepare, load_status, load_clinical. rewrite Rras. simpl.
  destruct (inspect_status_cases ras_df) as [[-> Cras] | (n & Hn & Hcol & ->)];
    simpl; [|exists (AttributeError n); split_and!; [done..|left; exists n; auto]].
  rewrite Rtp53. simpl.
  destruct (inspect_status_cases tp53_df) as [[-> Ctp53] | (n & Hn & Hcol & ->)];
    simpl; [|exists (AttributeError n); split_and!; [done..|left; exists n; auto]].
  rewrite Rclin. simpl.
  destruct Hmissing as [(n & Hn & [Hcol|Hcol]) | (n & Hn & Hcol)].
  { destruct (Cras n Hn) as [? ?]. congruence. }
  { destruct (Ctp53 n Hn) as [? ?]. congruence. }
  destruct (normalize_histology clin_df) as [clin_df'|e] eqn:Enorm; simpl.
  - assert (Hmodel : column "Model" clin_df = None).
    { apply elem_of_cons in Hn as [->|Hn]; [done|].
      apply list_elem_of_singleton in Hn as ->.
      unfold normalize_histology, getattr in Enorm. by rewrite Hcol in Enorm. }
    unfold clinical_rows, getitem.
    rewrite (normalize_histology_other_columns _ _ "Model" Enorm), Hmodel by done.
    simpl. exists (KeyError "Model"). naive_solver.
  - exists e. split; [done|].
    destruct (normalize_histology_error _ _ Enorm) as [[Hh ->] | [[c Hc] Hpath]].
    + naive_solver.
    + split; [done|]. right. right. split; [|by right].
      apply elem_of_cons in Hn as [->|Hn]; [done|].
      apply list_elem_of_singleton in Hn as ->. congruence.
Qed.

End script_facts.

Lemma missing_column_stops_run_witness :
  load_status Sample.disk ras_path = Ok Sample.ras_no_model ∧
  outcome (@script unit unit sklearn_outcomes Sample.disk [Sample.S1])
    = Raise (AttributeError "Model") ∧
  saved (@script unit unit sklearn_outcomes Sample.disk [Sample.S1]) = [].
Proof.
  destruct (@missing_column_stops_run unit unit sklearn_outcomes Sample.disk
              [Sample.S1] Sample.ras_no_model Sample.tp53_df Sample.clinical_df)
    as (Hload & _ & _ & e & He & Hsaved & _).
  - reflexivity.
  - reflexivity.
  - reflexivity.
  - left. exists "Model". split; [left|by left].
  - split; [exact Hload|]. split; [|exact Hsaved].
    vm_compute. reflexivity.
Defined.

(** C8 as stated fails: the Ras table on this disk has no [Model] column,
    and the loader returns it without an error. *)
Lemma loader_accepts_missing_column :
  column "Model" Sample.ras_no_model = None ∧
  load_status Sample.disk ras_path = Ok Sample.ras_no_model.
Proof. vm_compute. done. Qed.

(** * Further properties *)

(** ** The output as a whole *)

Lemma reconcile_cons s scores clinical tp53 ras :
  reconcile (s :: scores) clinical tp53 ras
  = reconcile [s] clinical tp53 ras ++ reconcile scores clinical tp53 ras.
Proof. by rewrite !reconcile_comprehension, bind_cons, bind_singleton. Qed.

Lemma reconcile_one_length s clinical tp53 ras :
  1 ≤ length (reconcile [s] clinical tp53 ras).
Proof. apply (reconcile_length_ge [s]). Qed.

Lemma reconcile_one_sample_id s clinical tp53 ras :
  Final.sample_id <$> reconcile [s] clinical tp53 ras
  = replicate (length (reconcile [s] clinical tp53 ras)) (Scores.sample_id s).
Proof.
  symmetry. apply replicate_as_elem_of. split; [by rewrite length_fmap|].
  intros y (r & -> & Hr)%list_elem_of_fmap.
  apply elem_of_reconcile in Hr as (s' & c & t & m & Hs & _ & _ & _ & ->).
  by apply list_elem_of_singleton in Hs as ->.
Qed.

(** X3. Reconciling a score table in two parts and putting the results end to
    end gives the reconciliation of the whole: no output row depends on
    another score row. *)
Theorem reconcile_app scores1 scores2 clinical tp53 ras :
  reconcile (scores1 ++ scores2) clinical tp53 ras
  = reconcile scores1 clinical tp53 ras ++ reconcile scores2 clinical tp53 ras.
Proof. by rewrite !reconcile_comprehension, bind_app. Qed.

(** X1. Whatever the three tables hold, the [sample_id] column of the output
    is the [sample_id] column of the score table with every entry repeated
    in place, at least once: the order of the score table is kept and no
    score row is lost. *)
Theorem reconcile_keeps_order scores clinical tp53 ras :
  Final.sample_id <$> reconcile scores clinical tp53 ras
  = (s ← scores;
     replicate (length (reconcile [s] clinical tp53 ras)) (Scores.sample_id s)) ∧
  Forall (λ s, 1 ≤ length (reconcile [s] clinical tp53 ras)) scores.
Proof.
  split.
  - induction scores as [|s scores IH]; [done|].
    by rewrite reconcile_cons, fmap_app, bind_cons, IH, reconcile_one_sample_id.
  - apply Forall_forall. intros s _. apply reconcile_one_length.
Qed.

(** X2. The number of output rows, exactly: each score row counts once for
    every clinical partner and, for that partner, once for every pair of a
    TP53 partner and a Ras partner of the resolved model. *)
Theorem reconcile_length scores clinical tp53 ras :
  length (reconcile scores clinical tp53 ras)
  = sum_list
      (s ← scores;
       c ← partners (Scores.sample_id s) Clinical.Model clinical;
       [ length (partners (c ≫= Clinical.Model) Status.Model tp53)
         * length (partners (c ≫= Clinical.Model) Status.Model ras) ]).
Proof.
  rewrite reconcile_comprehension.
  induction scores as [|s scores IH]; [done|].
  rewrite !bind_cons, length_app, sum_list_with_app, IH. f_equal.
  induction (partners (Scores.sample_id s) Clinical.Model clinical)
    as [|c cs IHc]; [done|].
  rewrite !bind_cons, length_app, IHc. simpl. f_equal.
  rewrite <- (length_fmap (λ _, ())).
  by rewrite (fmap_pairs_const _ _ ()), length_replicate.
Qed.

(** X5. With no clinical row and no mutation row, every sample comes out once,
    unresolved and wild type in both pathways. *)
Theorem reconcile_empty_tables scores :
  reconcile scores [] [] [] = (λ s, final_row s None None None) <$> scores.
Proof.
  rewrite reconcile_comprehension, list_fmap_as_bind.
  apply list_bind_ext; [|done]. intros s. reflexivity.
Qed.

Lemma status_is_boolean_witness :
  (Final.tp53_status (final_row Sample.S1 (Some Sample.lung) (Some Sample.tp53)
      (Some Sample.kras)) = OInt 0 ∨
   Final.tp53_status (final_row Sample.S1 (Some Sample.lung) (Some Sample.tp53)
      (Some Sample.kras)) = OInt 1) ∧
  (Final.ras_status (final_row Sample.S1 (Some Sample.lung) (Some Sample.tp53)
      (Some Sample.kras)) = OInt 0 ∨
   Final.ras_status (final_row Sample.S1 (Some Sample.lung) (Some Sample.tp53)
      (Some Sample.kras)) = OInt 1).
Proof.
  apply (status_is_boolean [Sample.S1; Sample.S2] [Sample.lung] [Sample.tp53]
           [Sample.kras]).
  vm_compute. left.
Defined.

(** ** The displayed symbols *)

Lemma symbol_of_joined table k o :
  joined k Status.Model table o →
  is_Some (fillna_wild_type (o ≫= Status.Hugo_Symbol)) ∧
  (status_of (o ≫= Status.Hugo_Symbol) = OInt 0 →
   fillna_wild_type (o ≫= Status.Hugo_Symbol) = Some "wild-type") ∧
  (status_of (o ≫= Status.Hugo_Symbol) = OInt 1 →
   ∃ m, m ∈ table ∧ k = Status.Model m ∧
        Status.Hugo_Symbol m = fillna_wild_type (o ≫= Status.Hugo_Symbol)).
Proof.
  intros Hj. destruct o as [m|]; simpl in *.
  - destruct Hj as [Hm Hk]. destruct (Status.Hugo_Symbol m) as [g|] eqn:Eg; simpl.
    + split_and!; [by eexists|done|]. intros _. exists m. by rewrite Eg.
    + split_and!; [by eexists|done|done].
  - split_and!; [by eexists|done|done].
Qed.

(** X7. After In[18] no displayed symbol is missing, for any tables.  In a row
    of status 0 the symbol reads ["wild-type"]; in a row of status 1 it is
    the [Hugo_Symbol] of a row of the mutation table whose [Model] is the
    row's [Model]. *)
Theorem symbols_agree_with_status scores clinical tp53 ras r :
  r ∈ reconcile scores clinical tp53 ras →
  (is_Some (Final.Hugo_Symbol_ras r) ∧
   (Final.ras_status r = OInt 0 → Final.Hugo_Symbol_ras r = Some "wild-type") ∧
   (Final.ras_status r = OInt 1 →
    ∃ m, m ∈ ras ∧ Final.Model r = Status.Model m ∧
         Status.Hugo_Symbol m = Final.Hugo_Symbol_ras r)) ∧
  (is_Some (Final.Hugo_Symbol_tp53 r) ∧
   (Final.tp53_status r = OInt 0 → Final.Hugo_Symbol_tp53 r = Some "wild-type") ∧
   (Final.tp53_status r = OInt 1 →
    ∃ m, m ∈ tp53 ∧ Final.Model r = Status.Model m ∧
         Status.Hugo_Symbol m = Final.Hugo_Symbol_tp53 r)).
Proof.
  intros (s & c & t & m & _ & _ & Ht & Hm & ->)%elem_of_reconcile.
  split.
  - exact (symbol_of_joined ras _ m Hm).
  - exact (symbol_of_joined tp53 _ t Ht).
Qed.

Lemma symbols_agree_with_status_witness :
  is_Some (Final.Hugo_Symbol_ras (final_row Sample.S1 (Some Sample.lung) None
                                    (Some Sample.unnamed))).
Proof.
  apply (symbols_agree_with_status [Sample.S1; Sample.S2] [Sample.lung] []
           [Sample.hras; Sample.unnamed]).
  vm_compute. left.
Defined.

(** ** In[14] and In[15]: which samples failed to map *)

(** X8. After the merge with the clinical table the [Model] of a row is its
    [sample_id] or is missing.  It is missing, which is what In[15] counts,
    exactly when the [sample_id] is itself missing or is the [Model] of no
    clinical row; and a histology in the output is the histology of a
    clinical row of that [Model]. *)
Theorem unmapped_iff_no_clinical_row scores clinical z :
  z ∈ merge_clinical scores clinical →
  (In14.Model z = None ∨ In14.Model z = In14.sample_id z) ∧
  (In14.Model z = None ↔
   In14.sample_id z = None ∨
   ∀ c, c ∈ clinical → In14.sample_id z ≠ Clinical.Model c) ∧
  (∀ h, In14.Histology z = Some h →
   ∃ c, c ∈ clinical ∧ In14.sample_id z = Clinical.Model c ∧
        Clinical.Histology c = Some h).
Proof.
  unfold merge_clinical. intros (s & c & _ & Hc & ->)%elem_of_merge_left.
  destruct c as [c|]; simpl in *.
  - destruct Hc as [Hin Hk]. split_and!.
    + by right.
    + split; [intros E; left; congruence|].
      intros [E | Hno]; [congruence|]. by destruct (Hno c Hin).
    + intros h Hh. by exists c.
  - split_and!; [by left| |done]. split; [|done]. intros _. by right.
Qed.

Lemma unmapped_iff_no_clinical_row_witness :
  In14.Model (with_clinical Sample.S2 None) = None ∨
  In14.Model (with_clinical Sample.S2 None)
    = In14.sample_id (with_clinical Sample.S2 None).
Proof.
  apply (unmapped_iff_no_clinical_row [Sample.S1; Sample.S2] [Sample.lung]).
  vm_compute. right. left.
Defined.

(** ** The order of the rows of the tables *)

Lemma partners_Permutation {R} (k : cell) (rkey : R → cell) (t1 t2 : list R) :
  t1 ≡ₚ t2 → partners k rkey t1 ≡ₚ partners k rkey t2.
Proof.
  intros Hp. unfold partners.
  pose proof (filter_Permutation (λ r, k = rkey r) _ _ Hp) as Hf.
  destruct (filter _ t1) as [|r1 rs1], (filter _ t2) as [|r2 rs2];
    try done; try (by apply Permutation_length in Hf).
  by apply fmap_Permutation.
Qed.

Lemma bind_Permutation_ext {A B} (f g : A → list B) (l1 l2 : list A) :
  (∀ x, f x ≡ₚ g x) → l1 ≡ₚ l2 → l1 ≫= f ≡ₚ l2 ≫= g.
Proof.
  intros Hfg Hl. rewrite <- Hl. clear l2 Hl.
  induction l1 as [|x l1 IH]; [done|].
  rewrite !bind_cons. by rewrite IH, Hfg.
Qed.

(** X4. The order of the rows in the clinical file and in the two mutation
    files, and the order of the score rows, decide only the order of the
    output rows: reordering any of the four tables leaves the same output
    rows, each as often as before. *)
Theorem reconcile_Permutation scores scores' clinical clinical' tp53 tp53' ras ras' :
  scores ≡ₚ scores' → clinical ≡ₚ clinical' → tp53 ≡ₚ tp53' → ras ≡ₚ ras' →
  reconcile scores clinical tp53 ras ≡ₚ reconcile scores' clinical' tp53' ras'.
Proof.
  intros Hs Hc Ht Hr. rewrite !reconcile_comprehension.
  apply bind_Permutation_ext; [|done]. intros s.
  apply bind_Permutation_ext; [|by apply partners_Permutation]. intros c.
  apply bind_Permutation_ext; [|by apply partners_Permutation]. intros t.
  apply bind_Permutation_ext; [done|by apply partners_Permutation].
Qed.

Lemma reconcile_Permutation_witness :
  reconcile [Sample.S1; Sample.S2] [Sample.lung] [Sample.tp53]
    [Sample.kras; Sample.nras]
  ≡ₚ reconcile [Sample.S2; Sample.S1] [Sample.lung] [Sample.tp53]
    [Sample.nras; Sample.kras].
Proof.
  apply (reconcile_Permutation [Sample.S1; Sample.S2] [Sample.S2; Sample.S1]
           [Sample.lung] [Sample.lung] [Sample.tp53] [Sample.tp53]
           [Sample.kras; Sample.nras] [Sample.nras; Sample.kras]).
  - apply perm_swap.
  - reflexivity.
  - reflexivity.
  - apply perm_swap.
Defined.

(** ** The histology rewrite, once it has returned *)

(** X9. When the rewrite of In[11] returns, the histology column has as many
    entries as before, all present, and none of them merely contains
    ["Other"]: a histology with ["Other"] in it is exactly ["Other"]. *)
Theorem normalize_histology_collapses df df' :
  normalize_histology df = Ok df' →
  ∃ hs hs' : list string,
    column "Histology" df = Some (Some <$> hs) ∧
    column "Histology" df' = Some (Some <$> hs') ∧
    length hs' = length hs ∧
    ∀ h a b, h ∈ hs' → h = a +:+ "Other" +:+ b → h = "Other".
Proof.
  intros (hs & Hcol & ->)%normalize_histology_Ok_inv.
  exists hs, (normalized <$> hs). split_and!.
  - done.
  - by rewrite column_loc_set, Hcol, <- mask_assign_normalized.
  - by rewrite length_fmap.
  - intros h a b (h0 & -> & _)%list_elem_of_fmap Hab.
    unfold normalized in *. destruct (contains "Other" h0) eqn:E; [done|].
    assert (contains "Other" h0 = true); [|congruence].
    apply contains_substring. by exists a, b.
Qed.

Lemma normalize_histology_collapses_witness :
  ∃ hs hs' : list string,
    column "Histology" Sample.clinical_df = Some (Some <$> hs) ∧
    column "Histology"
      (loc_set [false; true; false] "Histology" (Some "Other") Sample.clinical_df)
      = Some (Some <$> hs') ∧
    length hs' = length hs ∧
    ∀ h a b, h ∈ hs' → h = a +:+ "Other" +:+ b → h = "Other".
Proof.
  apply (normalize_histology_collapses Sample.clinical_df).
  reflexivity.
Defined.

(** ** When the preparation runs through *)

Lemma read_table_Ok (fs : gmap string DataFrame) path df :
  read_table fs path = Ok df ↔ fs !! path = Some df.
Proof. unfold read_table. destruct (fs !! path); split; congruence. Qed.

Lemma inspect_status_Ok status_df :
  inspect_status status_df = Ok () ↔
  ∀ n, n ∈ ["Model"; "Hugo_Symbol"; "Variant_Classification"] →
       is_Some (column n status_df).
Proof.
  destruct (inspect_status_cases status_df) as [[-> Hall] | (n & Hn & Hcol & ->)].
  - done.
  - split; [done|]. intros Hall. destruct (Hall n Hn) as [? ?]. congruence.
Qed.

(** X11. When In[3] to In[18] run through, the three files were there, each
    status table has its three columns, and the clinical table has a
    [Model] column and a [Histology] column without a missing value. *)
Theorem prepare_requirements (fs : gmap string DataFrame) scores :
  succeeds (prepare fs scores) →
  ∃ ras_df tp53_df clin_df (hs : list string),
    fs !! ras_path = Some ras_df ∧
    fs !! tp53_path = Some tp53_df ∧
    fs !! clinical_path = Some clin_df ∧
    (∀ n, n ∈ ["Model"; "Hugo_Symbol"; "Variant_Classification"] →
          is_Some (column n ras_df)) ∧
    (∀ n, n ∈ ["Model"; "Hugo_Symbol"; "Variant_Classification"] →
          is_Some (column n tp53_df)) ∧
    is_Some (column "Model" clin_df) ∧
    column "Histology" clin_df = Some (Some <$> hs).
Proof.
  unfold prepare, load_status, load_clinical.
  intros [out Hout].
  destruct (read_table fs ras_path) as [ras_df|] eqn:Eras;
    simpl in Hout; [|done].
  destruct (inspect_status ras_df) as [[]|] eqn:Iras; simpl in Hout; [|done].
  destruct (read_table fs tp53_path) as [tp53_df|] eqn:Etp53;
    simpl in Hout; [|done].
  destruct (inspect_status tp53_df) as [[]|] eqn:Itp53; simpl in Hout; [|done].
  destruct (read_table fs clinical_path) as [clin_df|] eqn:Eclin;
    simpl in Hout; [|done].
  destruct (normalize_histology clin_df) as [clin_df'|] eqn:Enorm;
    simpl in Hout; [|done].
  destruct (normalize_histology_Ok_inv _ _ Enorm) as (hs & Hcol & _).
  exists ras_df, tp53_df, clin_df, hs.
  split_and!; try (by apply read_table_Ok); try (by apply inspect_status_Ok);
    [|done].
  unfold clinical_rows, getitem in Hout.
  rewrite (normalize_histology_other_columns _ _ "Model" Enorm) in Hout by done.
  destruct (column "Model" clin_df); [by eexists|done].
Qed.

Lemma prepare_requirements_witness :
  ∃ ras_df tp53_df clin_df (hs : list string),
    Sample.full_disk !! ras_path = Some ras_df ∧
    Sample.full_disk !! tp53_path = Some tp53_df ∧
    Sample.full_disk !! clinical_path = Some clin_df ∧
    (∀ n, n ∈ ["Model"; "Hugo_Symbol"; "Variant_Classification"] →
          is_Some (column n ras_df)) ∧
    (∀ n, n ∈ ["Model"; "Hugo_Symbol"; "Variant_Classification"] →
          is_Some (column n tp53_df)) ∧
    is_Some (column "Model" clin_df) ∧
    column "Histology" clin_df = Some (Some <$> hs).
Proof.
  apply (prepare_requirements Sample.full_disk [Sample.S1; Sample.S2]).
  eexists. vm_compute. reflexivity.
Defined.

(** ** What the loop stores *)

Section loop_records.
Context {curve scalar : Type} `{!Sklearn curve scalar}.

Lemma evaluate_Ok (scores_df : list Final.row) (idx : nat)
    (status : Final.row → obj) (score shuff : Final.row → float)
    (st st' : store curve scalar) :
  evaluate scores_df idx status score shuff st = (st', Ok ()) →
  recorded st' idx (status <$> scores_df) (score <$> scores_df)
    (shuff <$> scores_df).
Proof.
  unfold evaluate, stmt_bind, call, setitem, recorded.
  destruct (roc_curve _ (score <$> _)) as [roc|]; [|done].
  destruct (precision_recall_curve _ (score <$> _)) as [pr|]; [|done].
  destruct (roc_auc_score _ (score <$> _)) as [auroc|]; [|done].
  destruct (average_precision_score _ (score <$> _)) as [aupr|]; [|done].
  destruct (roc_curve _ (shuff <$> _)) as [roc'|]; [|done].
  destruct (precision_recall_curve _ (shuff <$> _)) as [pr'|]; [|done].
  destruct (roc_auc_score _ (shuff <$> _)) as [auroc'|]; [|done].
  destruct (average_precision_score _ (shuff <$> _)) as [aupr'|]; [|done].
  intros [= <-]. exists roc, pr, auroc, aupr, roc', pr', auroc', aupr'.
  split_and!; try done; by simplify_map_eq.
Qed.

Lemma recorded_frame (st st' : store curve scalar) (idx : nat)
    (y_true : list obj) (y_score y_shuffle : list float) :
  (∀ d, st' !! (d, idx) = st !! (d, idx)) →
  recorded st idx y_true y_score y_shuffle →
  recorded st' idx y_true y_score y_shuffle.
Proof.
  intros Hsame (roc & pr & auroc & aupr & roc' & pr' & auroc' & aupr' & H).
  exists roc, pr, auroc, aupr, roc', pr', auroc', aupr'.
  rewrite !Hsame. exact H.
Qed.

Lemma metrics_loop_Ok_inv (scores_df : list Final.row) (st : store curve scalar) :
  metrics_loop scores_df ∅ = (st, Ok ()) →
  ∃ st0,
    evaluate scores_df 0 Final.ras_status Final.ras_score Final.ras_shuffle ∅
      = (st0, Ok ()) ∧
    evaluate scores_df 1 Final.tp53_status Final.tp53_score Final.tp53_shuffle st0
      = (st, Ok ()).
Proof.
  unfold metrics_loop, for_each, stmt_bind at 1 2, call.
  destruct (evaluate scores_df 0 _ _ _ ∅) as [st0 [[]|]] eqn:E0; [|done].
  destruct (evaluate scores_df 1 _ _ _ st0) as [st1 [[]|]] eqn:E1; [|done].
  intros [= <-]. by exists st0.
Qed.

Lemma metrics_loop_Ok_recorded (scores_df : list Final.row)
    (st : store curve scalar) :
  metrics_loop scores_df ∅ = (st, Ok ()) →
  recorded st 0 (Final.ras_status <$> scores_df) (Final.ras_score <$> scores_df)
    (Final.ras_shuffle <$> scores_df) ∧
  recorded st 1 (Final.tp53_status <$> scores_df) (Final.tp53_score <$> scores_df)
    (Final.tp53_shuffle <$> scores_df).
Proof.
  intros (st0 & H0 & H1)%metrics_loop_Ok_inv. split.
  - apply (recorded_frame st0); [|by eapply evaluate_Ok].
    intros d. by apply (evaluate_writes_only _ _ _ _ _ _ _ _ H1 d 0).
  - by eapply evaluate_Ok.
Qed.

Lemma call_writes_within {A} keys (r : result A) :
  writes_within keys (call r : stmt curve scalar A).
Proof. intros st st' r' [= <- _] k _. done. Qed.

Lemma setitem_writes_within keys (d : string) (idx : nat)
    (v : metric curve scalar) :
  (d, idx) ∈ keys → writes_within keys (setitem d idx v).
Proof.
  intros Hin st st' r [= <- _] k Hk. apply lookup_insert_ne. by intros <-.
Qed.

Lemma bind_writes_within {A B} keys (m : stmt curve scalar A)
    (k : A → stmt curve scalar B) :
  writes_within keys m → (∀ a, writes_within keys (k a)) →
  writes_within keys (stmt_bind m k).
Proof.
  intros Hm Hk st st' r. unfold stmt_bind.
  destruct (m st) as [st1 [a|e]] eqn:Em.
  - intros Ek key Hkey. rewrite (Hk a _ _ _ Ek key Hkey). by eapply Hm.
  - intros [= <- _] key Hkey. by eapply Hm.
Qed.

Lemma evaluate_writes_within (scores_df : list Final.row) (idx : nat)
    (status : Final.row → obj) (score shuff : Final.row → float) :
  writes_within ((λ d : string, (d, idx)) <$> dictionaries)
    (evaluate scores_df idx status score shuff).
Proof.
  unfold evaluate.
  repeat first
    [ apply bind_writes_within; [|intros ?]
    | apply call_writes_within
    | apply setitem_writes_within; apply (list_elem_of_fmap_2 (λ d : string, (d, idx)));
      unfold dictionaries; set_solver ].
Qed.

Lemma elem_of_round_keys (d : string) (i idx : nat) :
  (d, i) ∈ (λ d : string, (d, idx)) <$> dictionaries ↔ d ∈ dictionaries ∧ i = idx.
Proof.
  rewrite list_elem_of_fmap. split.
  - by intros (d' & [= -> ->] & Hd).
  - intros [Hd ->]. by exists d.
Qed.

(** The two rounds of the loop, whatever their outcome. *)
Lemma metrics_loop_inv (scores_df : list Final.row) (st : store curve scalar)
    (r : result unit) :
  metrics_loop scores_df ∅ = (st, r) →
  ∃ st0 r0,
    evaluate scores_df 0 Final.ras_status Final.ras_score Final.ras_shuffle ∅
      = (st0, r0) ∧
    ((∃ e, r0 = Raise e ∧ st = st0 ∧ r = Raise e) ∨
     (r0 = Ok () ∧
      evaluate scores_df 1 Final.tp53_status Final.tp53_score Final.tp53_shuffle st0
        = (st, r))).
Proof.
  unfold metrics_loop, for_each, stmt_bind at 1 2, call.
  destruct (evaluate scores_df 0 _ _ _ ∅) as [st0 [[]|e]] eqn:E0.
  - destruct (evaluate scores_df 1 _ _ _ st0) as [st1 [[]|e]] eqn:E1;
      intros [= <- <-]; exists st0, (Ok ()); (split; [done|]); by right.
  - intros [= <- <-]. exists st0, (Raise e). split; [done|]. left. by exists e.
Qed.

Lemma metrics_loop_keys_bound (scores_df : list Final.row)
    (st : store curve scalar) (r : result unit) (d : string) (i : nat) :
  metrics_loop scores_df ∅ = (st, r) →
  is_Some (st !! (d, i)) → d ∈ dictionaries ∧ i < 2.
Proof.
  intros (st0 & r0 & H0 & Hrest)%metrics_loop_inv Hsome.
  destruct (decide (d ∈ dictionaries)) as [Hd|Hd]; last first.
  { exfalso. assert (st0 !! (d, i) = None) as Hnone0.
    { rewrite (evaluate_writes_within _ _ _ _ _ _ _ _ H0 (d, i)); [done|].
      rewrite elem_of_round_keys. tauto. }
    destruct Hrest as [(e & _ & -> & _) | [_ H1]].
    - rewrite Hnone0 in Hsome. by destruct Hsome.
    - rewrite (evaluate_writes_within _ _ _ _ _ _ _ _ H1 (d, i)) in Hsome.
      + rewrite Hnone0 in Hsome. by destruct Hsome.
      + rewrite elem_of_round_keys. tauto. }
  split; [done|].
  destruct (decide (i < 2)) as [|Hi]; [done|]. exfalso.
  assert (st0 !! (d, i) = None) as Hnone0.
  { rewrite (evaluate_writes_within _ _ _ _ _ _ _ _ H0 (d, i)); [done|].
    rewrite elem_of_round_keys. lia. }
  destruct Hrest as [(e & _ & -> & _) | [_ H1]].
  - rewrite Hnone0 in Hsome. by destruct Hsome.
  - rewrite (evaluate_writes_within _ _ _ _ _ _ _ _ H1 (d, i)) in Hsome.
    + rewrite Hnone0 in Hsome. by destruct Hsome.
    + rewrite elem_of_round_keys. lia.
Qed.

Lemma recorded_keys (st : store curve scalar) (idx : nat) (y_true : list obj)
    (y_score y_shuffle : list float) (d : string) :
  recorded st idx y_true y_score y_shuffle →
  d ∈ dictionaries → is_Some (st !! (d, idx)).
Proof.
  intros (roc & pr & auroc & aupr & roc' & pr' & auroc' & aupr' &
          _ & _ & _ & _ & _ & _ & _ & _ &
          H1 & H2 & H3 & H4 & H5 & H6 & H7 & H8 & H9 & H10 & H11 & H12) Hd.
  unfold dictionaries in Hd.
  repeat (apply elem_of_cons in Hd as [->|Hd]; [by eexists|]).
  by apply elem_of_nil in Hd.
Qed.

(** X12. When the loop of In[19] ends without an exception, the dictionaries
    hold, under key 0, what the four functions return on the Ras labels
    with the Ras scores and with the shuffled Ras scores, and under key 1
    the same for TP53: no entry of the first round is overwritten by the
    second, and the shuffled metrics are computed against the same labels
    as the real ones.  The twelve dictionaries hold the keys 0 and 1 and no
    other. *)
Theorem metrics_loop_records (scores_df : list Final.row)
    (st : store curve scalar) :
  metrics_loop scores_df ∅ = (st, Ok ()) →
  recorded st 0 (Final.ras_status <$> scores_df) (Final.ras_score <$> scores_df)
    (Final.ras_shuffle <$> scores_df) ∧
  recorded st 1 (Final.tp53_status <$> scores_df) (Final.tp53_score <$> scores_df)
    (Final.tp53_shuffle <$> scores_df) ∧
  ∀ d i, is_Some (st !! (d, i)) ↔ d ∈ dictionaries ∧ i < 2.
Proof.
  intros Hloop. destruct (metrics_loop_Ok_recorded _ _ Hloop) as [R0 R1].
  split_and!; [done..|]. intros d i. split.
  - by apply (metrics_loop_keys_bound scores_df st (Ok ())).
  - intros [Hd Hi]. destruct i as [|[|i]]; [| |lia].
    + by apply (recorded_keys _ _ _ _ _ _ R0).
    + by apply (recorded_keys _ _ _ _ _ _ R1).
Qed.

(** X13. After a loop that ended without an exception, the cells In[21] and
    In[22] find every dictionary entry they read: neither raises
    [KeyError]. *)
Theorem figures_find_their_keys (scores_df : list Final.row)
    (st : store curve scalar) :
  metrics_loop scores_df ∅ = (st, Ok ()) →
  succeeds (roc_figure st) ∧ succeeds (pr_figure st).
Proof.
  intros [R0 R1]%metrics_loop_Ok_recorded.
  assert (Hkey : ∀ d i, d ∈ dictionaries → i < 2 →
            ∃ v, subscript st d i = Ok v).
  { intros d i Hd Hi. unfold subscript. destruct i as [|[|i]]; [| |lia].
    - destruct (recorded_keys _ _ _ _ _ d R0 Hd) as [v ->]. by exists v.
    - destruct (recorded_keys _ _ _ _ _ d R1 Hd) as [v ->]. by exists v. }
  assert (Hall : ∀ keys : list (string * nat),
            Forall (λ k, k.1 ∈ dictionaries ∧ k.2 < 2) keys →
            succeeds (subscripts st keys)).
  { induction 1 as [|[d i] keys [Hd Hi] _ [vs IH]]; [by eexists|].
    destruct (Hkey d i Hd Hi) as [v Hv]. simpl. rewrite Hv, IH. by eexists. }
  split; apply Hall; unfold dictionaries, n_classes; simpl;
    repeat constructor; simpl; set_solver.
Qed.

(** X14. Whatever the outcome of the loop, it writes under the keys 0 and 1 of
    the twelve dictionaries and nowhere else, and an entry under key 1 is
    there only when the Ras round has stored all of its own. *)
Theorem metrics_loop_keys (scores_df : list Final.row)
    (st : store curve scalar) (r : result unit) :
  metrics_loop scores_df ∅ = (st, r) →
  (∀ d i, is_Some (st !! (d, i)) → d ∈ dictionaries ∧ i < 2) ∧
  (∀ d, is_Some (st !! (d, 1)) →
        recorded st 0 (Final.ras_status <$> scores_df)
          (Final.ras_score <$> scores_df) (Final.ras_shuffle <$> scores_df)).
Proof.
  intros Hloop. split.
  - intros d i. by apply (metrics_loop_keys_bound scores_df st r).
  - intros d Hsome.
    apply metrics_loop_inv in Hloop as (st0 & r0 & H0 & [(e & _ & -> & _) | [-> H1]]).
    + rewrite (evaluate_writes_only _ _ _ _ _ _ _ _ H0 d 1) in Hsome by done.
      rewrite lookup_empty in Hsome. by destruct Hsome.
    + apply (recorded_frame st0); [|by eapply evaluate_Ok].
      intros d'. by apply (evaluate_writes_only _ _ _ _ _ _ _ _ H1 d' 0).
Qed.

(** X15. An exception in the TP53 round comes after the Ras round: the loop
    raises it, and the Ras metrics stay in the dictionaries as the Ras
    round stored them. *)
Theorem late_failure_keeps_ras_records (scores_df : list Final.row)
    (st0 : store curve scalar) :
  (∀ y_true y_score, single_class y_true = true →
                     raises (roc_auc_score y_true y_score)) →
  evaluate scores_df 0 Final.ras_status Final.ras_score Final.ras_shuffle ∅
    = (st0, Ok ()) →
  single_class (Final.tp53_status <$> scores_df) = true →
  ∃ st e,
    metrics_loop scores_df ∅ = (st, Raise e) ∧
    recorded st 0 (Final.ras_status <$> scores_df)
      (Final.ras_score <$> scores_df) (Final.ras_shuffle <$> scores_df).
Proof.
  intros Hlib H0 Hone.
  destruct (evaluate_raises scores_df 1 Final.tp53_status Final.tp53_score
              Final.tp53_shuffle st0 (Hlib _ _ Hone)) as (st & e & H1).
  exists st, e. split.
  - unfold metrics_loop, for_each, stmt_bind at 1 2. by rewrite H0, H1.
  - apply (recorded_frame st0); [|by eapply evaluate_Ok].
    intros d. by apply (evaluate_writes_only _ _ _ _ _ _ _ _ H1 d 0).
Qed.

(** X16. When [roc_auc_score] raises on the Ras labels after the two curve
    functions have returned, the loop leaves the dictionaries half filled:
    the four curve entries of the Ras round are there, and nothing else. *)
Theorem early_failure_leaves_curves (scores_df : list Final.row) roc pr e :
  roc_curve (Final.ras_status <$> scores_df) (Final.ras_score <$> scores_df)
    = Ok roc →
  precision_recall_curve (Final.ras_status <$> scores_df)
    (Final.ras_score <$> scores_df) = Ok pr →
  roc_auc_score (Final.ras_status <$> scores_df) (Final.ras_score <$> scores_df)
    = Raise e →
  metrics_loop scores_df ∅
  = ({[ ("fpr_pdx", 0) := Curve roc.1; ("tpr_pdx", 0) := Curve roc.2;
        ("precision_pdx", 0) := Curve pr.1; ("recall_pdx", 0) := Curve pr.2 ]},
     Raise e).
Proof.
  intros Hroc Hpr Hauc.
  unfold metrics_loop, for_each, stmt_bind at 1, evaluate, stmt_bind, call, setitem.
  rewrite Hroc, Hpr, Hauc. f_equal.
Qed.

End loop_records.

Lemma pair_Ok {A B} (p : A * result B) (b : B) : p.2 = Ok b → p = (p.1, Ok b).
Proof. destruct p as [a r]. simpl. by intros ->. Qed.

Lemma metrics_loop_records_witness :
  @recorded unit unit sklearn_outcomes (@metrics_loop unit unit sklearn_outcomes Sample.both_classes ∅).1 0
    (Final.ras_status <$> Sample.both_classes)
    (Final.ras_score <$> Sample.both_classes)
    (Final.ras_shuffle <$> Sample.both_classes) ∧
  @recorded unit unit sklearn_outcomes (@metrics_loop unit unit sklearn_outcomes Sample.both_classes ∅).1 1
    (Final.tp53_status <$> Sample.both_classes)
    (Final.tp53_score <$> Sample.both_classes)
    (Final.tp53_shuffle <$> Sample.both_classes) ∧
  ∀ d i,
    is_Some ((@metrics_loop unit unit sklearn_outcomes Sample.both_classes ∅).1
               !! (d, i))
    ↔ d ∈ dictionaries ∧ i < 2.
Proof.
  apply (@metrics_loop_records unit unit sklearn_outcomes Sample.both_classes).
  apply pair_Ok. vm_compute. reflexivity.
Defined.

Lemma figures_find_their_keys_witness :
  succeeds (roc_figure
    (@metrics_loop unit unit sklearn_outcomes Sample.both_classes ∅).1) ∧
  succeeds (pr_figure
    (@metrics_loop unit unit sklearn_outcomes Sample.both_classes ∅).1).
Proof.
  apply (@figures_find_their_keys unit unit sklearn_outcomes Sample.both_classes).
  apply pair_Ok. vm_compute. reflexivity.
Defined.

Lemma metrics_loop_keys_witness :
  (∀ d i,
     is_Some ((@metrics_loop unit unit sklearn_outcomes Sample.tp53_wild_type ∅).1
                !! (d, i))
     → d ∈ dictionaries ∧ i < 2) ∧
  (∀ d,
     is_Some ((@metrics_loop unit unit sklearn_outcomes Sample.tp53_wild_type ∅).1
                !! (d, 1))
     → @recorded unit unit sklearn_outcomes (@metrics_loop unit unit sklearn_outcomes Sample.tp53_wild_type ∅).1 0
         (Final.ras_status <$> Sample.tp53_wild_type)
         (Final.ras_score <$> Sample.tp53_wild_type)
         (Final.ras_shuffle <$> Sample.tp53_wild_type)).
Proof.
  apply (@metrics_loop_keys unit unit sklearn_outcomes Sample.tp53_wild_type _
           (@metrics_loop unit unit sklearn_outcomes Sample.tp53_wild_type ∅).2).
  apply surjective_pairing.
Defined.

Lemma late_failure_keeps_ras_records_witness :
  ∃ st e,
    @metrics_loop unit unit sklearn_outcomes Sample.tp53_wild_type ∅
      = (st, Raise e) ∧
    @recorded unit unit sklearn_outcomes st 0 (Final.ras_status <$> Sample.tp53_wild_type)
      (Final.ras_score <$> Sample.tp53_wild_type)
      (Final.ras_shuffle <$> Sample.tp53_wild_type).
Proof.
  apply (@late_failure_keeps_ras_records unit unit sklearn_outcomes
           Sample.tp53_wild_type
           (@evaluate unit unit sklearn_outcomes Sample.tp53_wild_type 0
              Final.ras_status Final.ras_score Final.ras_shuffle ∅).1).
  - intros y_true y_score Hone. simpl. rewrite Hone. by eexists.
  - apply pair_Ok. vm_compute. reflexivity.
  - reflexivity.
Defined.

Lemma early_failure_leaves_curves_witness :
  @metrics_loop unit unit sklearn_outcomes Sample.ras_wild_type ∅
  = ({[ ("fpr_pdx", 0) := Curve (); ("tpr_pdx", 0) := Curve ();
        ("precision_pdx", 0) := Curve (); ("recall_pdx", 0) := Curve () ]},
     Raise (ValueError
       "Only one class present in y_true. ROC AUC score is not defined in that case.")).
Proof.
  apply (@early_failure_leaves_curves unit unit sklearn_outcomes
           Sample.ras_wild_type ((), ()) ((), ())).
  - reflexivity.
  - reflexivity.
  - reflexivity.
Defined.

(** ** The samples of the t-tests *)

Lemma status_of_row_is_boolean scores clinical tp53 ras r :
  r ∈ reconcile scores clinical tp53 ras →
  (Final.ras_status r = OInt 0 ∨ Final.ras_status r = OInt 1) ∧
  (Final.tp53_status r = OInt 0 ∨ Final.tp53_status r = OInt 1).
Proof.
  intros (s & c & t & m & _ & _ & _ & _ & ->)%elem_of_reconcile. simpl.
  split.
  - destruct (m ≫= Status.Hugo_Symbol); [right|left]; done.
  - destruct (t ≫= Status.Hugo_Symbol); [right|left]; done.
Qed.

Lemma filter_ext_in {A} (P Q : A → Prop) `{!∀ x, Decision (P x)}
    `{!∀ x, Decision (Q x)} (l : list A) :
  (∀ x, x ∈ l → (P x ↔ Q x)) → filter P l = filter Q l.
Proof.
  induction l as [|x l IH]; intros Hext; [done|].
  rewrite !filter_cons.
  rewrite IH by (intros y Hy; apply Hext; by right).
  destruct (decide (P x)) as [HP|HP], (decide (Q x)) as [HQ|HQ]; try done.
  - destruct HQ. by apply (Hext x); [left|].
  - destruct HP. by apply (Hext x); [left|].
Qed.

Lemma query_scores_partition (status : Final.row → obj)
    (score : Final.row → float) (scores_df : list Final.row) :
  (∀ r, r ∈ scores_df → status r = OInt 0 ∨ status r = OInt 1) →
  query_scores status score 1 scores_df ++ query_scores status score 0 scores_df
  ≡ₚ score <$> scores_df.
Proof.
  intros Hbool. unfold query_scores. rewrite <- fmap_app.
  apply fmap_Permutation.
  rewrite (filter_ext_in (λ r, status r = OInt 0) (λ r, ¬ status r = OInt 1)).
  - apply filter_app_complement.
  - intros r Hr. destruct (Hbool r Hr) as [-> | ->]; split; done.
Qed.

(** X17. The two samples that In[23] hands to [ttest_ind] split the Ras scores
    of the reconciled table: every output row gives its score to the mutant
    sample or to the wild-type sample, and to one of them only.  In[24]
    does the same with the TP53 scores. *)
Theorem ttest_samples_partition scores clinical tp53 ras :
  (ttest_samples Final.ras_status Final.ras_score
     (reconcile scores clinical tp53 ras)).1
  ++ (ttest_samples Final.ras_status Final.ras_score
        (reconcile scores clinical tp53 ras)).2
  ≡ₚ Final.ras_score <$> reconcile scores clinical tp53 ras ∧
  (ttest_samples Final.tp53_status Final.tp53_score
     (reconcile scores clinical tp53 ras)).1
  ++ (ttest_samples Final.tp53_status Final.tp53_score
        (reconcile scores clinical tp53 ras)).2
  ≡ₚ Final.tp53_score <$> reconcile scores clinical tp53 ras.
Proof.
  split; apply query_scores_partition; intros r Hr;
    apply status_of_row_is_boolean in Hr; tauto.
Qed.

(** ** A cohort of one class *)

Lemma single_class_constant (y_true : list obj) (v : obj) :
  (∀ y, y ∈ y_true → y = v) → single_class y_true = true.
Proof.
  intros Hall. destruct y_true as [|y rest]; [done|]. simpl.
  apply forallb_forall. intros y' Hy'%list_elem_of_In.
  apply bool_decide_eq_true.
  rewrite (Hall y) by left. apply Hall. by right.
Qed.

Section cohort_facts.
Context {curve scalar : Type} `{!Sklearn curve scalar}.

(** X18. When [roc_auc_score] rejects labels of a single class and every row of
    the reconciled table has the same Ras status (no sample is a Ras
    mutant, or all are, or the score table is empty), the run ends in the
    metrics loop with an exception and saves no figure, although In[3] to
    In[18] went through. *)
Theorem one_class_cohort_saves_nothing (fs : gmap string DataFrame)
    (scores : list Scores.row) (scores_df : list Final.row) (v : obj) :
  (∀ y_true y_score, single_class y_true = true →
                     raises (roc_auc_score y_true y_score)) →
  prepare fs scores = Ok scores_df →
  (∀ r, r ∈ scores_df → Final.ras_status r = v) →
  raises (outcome (script fs scores)) ∧ saved (script fs scores) = [].
Proof.
  intros Hlib Hprep Hsame.
  assert (Hone : single_class (Final.ras_status <$> scores_df) = true).
  { apply (single_class_constant _ v).
    intros y (r & -> & Hr)%list_elem_of_fmap. by apply Hsame. }
  destruct (evaluate_raises scores_df 0 Final.ras_status Final.ras_score
              Final.ras_shuffle ∅ (Hlib _ _ Hone)) as (st & e & Hev).
  assert (Hloop : metrics_loop scores_df ∅ = (st, Raise e)).
  { unfold metrics_loop, for_each, stmt_bind at 1. by rewrite Hev. }
  unfold script. rewrite Hprep, Hloop. simpl.
  split; [by exists e|done].
Qed.

End cohort_facts.

Lemma one_class_cohort_saves_nothing_witness :
  raises (outcome (@script unit unit sklearn_outcomes Sample.full_disk
                     Sample.strangers)) ∧
  saved (@script unit unit sklearn_outcomes Sample.full_disk Sample.strangers) = [].
Proof.
  apply (@one_class_cohort_saves_nothing unit unit sklearn_outcomes
           Sample.full_disk Sample.strangers
           [final_row Sample.S2 None None None] (OInt 0)).
  - intros y_true y_score Hone. simpl. rewrite Hone. by eexists.
  - vm_compute. reflexivity.
  - intros r ->%list_elem_of_singleton. reflexivity.
Defined.

(** ** In[4] and In[8]: the number of models *)

Lemma elem_of_unique (c : list (option string)) y : y ∈ unique c ↔ y ∈ c.
Proof.
  induction c as [|x c IH]; [done|]. simpl.
  rewrite !elem_of_cons, list_elem_of_filter, IH.
  destruct (decide (y = x)) as [->|Hne]; [split; by left|].
  split; [intros [?|[_ ?]]; [done|by right] | intros [?|?]; [done|by right]].
Qed.

Lemma NoDup_unique (c : list (option string)) : NoDup (unique c).
Proof.
  induction c as [|x c IH]; simpl; [constructor|].
  apply NoDup_cons. split.
  - intros [Hne _]%list_elem_of_filter. done.
  - by apply NoDup_filter.
Qed.

Lemma length_unique (c : list (option string)) : length (unique c) ≤ length c.
Proof.
  induction c as [|x c IH]; simpl; [done|].
  pose proof (length_filter (λ y, y ≠ x) (unique c)). lia.
Qed.

Lemma filter_all {A} (P : A → Prop) `{!∀ x, Decision (P x)} (l : list A) :
  Forall P l → filter P l = l.
Proof.
  induction 1 as [|x l HP _ IH]; [done|].
  by rewrite filter_cons, decide_True, IH.
Qed.

Lemma unique_NoDup (c : list (option string)) : NoDup c → unique c = c.
Proof.
  induction 1 as [|x c Hx _ IH]; [done|]. simpl. rewrite IH. f_equal.
  apply filter_all, Forall_forall. by intros y Hy ->.
Qed.

(** X19. The number printed by In[4] (and by In[8]) counts every model once,
    a missing identifier included: it is at most the number of rows of the
    table, and it is the number of rows exactly when no model has two rows,
    which is when the merge of In[16] adds no row for this table. *)
Theorem count_models_detects_duplicates status_df (model : list (option string)) :
  column "Model" status_df = Some model →
  ∃ n, count_models status_df = Ok n ∧
       n ≤ length model ∧
       (n = length model ↔ NoDup model) ∧
       (∀ k, k ∈ model → k ∈ unique model).
Proof.
  intros Hcol. exists (length (unique model)). split_and!.
  - unfold count_models, getattr. by rewrite Hcol.
  - apply length_unique.
  - split.
    + intros Hlen.
      assert (Hperm : unique model ≡ₚ model).
      { apply submseteq_length_Permutation; [|lia].
        apply NoDup_submseteq; [apply NoDup_unique|].
        intros y. apply elem_of_unique. }
      rewrite <- Hperm. apply NoDup_unique.
    + intros Hnd. by rewrite unique_NoDup.
  - intros k. apply elem_of_unique.
Qed.

Lemma count_models_detects_duplicates_witness :
  ∃ n, count_models Sample.ras_df = Ok n ∧
       n ≤ length [Some "S1"; Some "S1"] ∧
       (n = length [Some "S1"; Some "S1"] ↔ NoDup [Some "S1"; Some "S1"]) ∧
       (∀ k, k ∈ [Some "S1"; Some "S1"] → k ∈ unique [Some "S1"; Some "S1"]).
Proof.
  apply (count_models_detects_duplicates Sample.ras_df).
  reflexivity.
Defined.

(** ** From the notebook's own counts to the number of output rows *)

Lemma fmap_zip_with_left {A B C D} (f : C → D) (g : A → B → C) (p : A → D)
    (l1 : list A) (l2 : list B) :
  (∀ a b, f (g a b) = p a) →
  f <$> zip_with g l1 l2 = p <$> take (length l2) l1.
Proof.
  intros Hf. revert l2.
  induction l1 as [|a l1 IH]; intros [|b l2]; simpl; try done.
  by rewrite Hf, IH.
Qed.

Lemma fmap_zip_with_right {A B C D} (f : C → D) (g : A → B → C) (p : B → D)
    (l1 : list A) (l2 : list B) :
  (∀ a b, f (g a b) = p b) →
  f <$> zip_with g l1 l2 = p <$> take (length l1) l2.
Proof.
  intros Hf. revert l2.
  induction l1 as [|a l1 IH]; intros [|b l2]; simpl; try done.
  by rewrite Hf, IH.
Qed.

Lemma NoDup_take_id {A} (l : list A) n : NoDup l → NoDup (id <$> take n l).
Proof.
  intros Hnd. rewrite list_fmap_id.
  apply (sublist_NoDup _ l); [done|apply sublist_take].
Qed.

Lemma count_models_all (status_df : DataFrame) (model : list (option string)) :
  column "Model" status_df = Some model →
  count_models status_df = Ok (length model) →
  NoDup model.
Proof.
  intros Hcol. unfold count_models, getattr. rewrite Hcol. simpl.
  intros [= Hlen].
  assert (Hperm : unique model ≡ₚ model).
  { apply submseteq_length_Permutation; [|lia].
    apply NoDup_submseteq; [apply NoDup_unique|].
    intros y. apply elem_of_unique. }
  rewrite <- Hperm. apply NoDup_unique.
Qed.

(** X20. When In[4] and In[8] print as many models as their tables have rows,
    and no two rows of the clinical table share a [Model], a run whose
    preparation goes through ends In[18] with exactly one row per score
    row, in the order of the score table. *)
Theorem counted_models_keep_row_count (fs : gmap string DataFrame)
    (scores : list Scores.row) (scores_df : list Final.row)
    (ras_df tp53_df clin_df : DataFrame)
    (ras_model tp53_model clin_model : list (option string)) :
  fs !! ras_path = Some ras_df →
  fs !! tp53_path = Some tp53_df →
  fs !! clinical_path = Some clin_df →
  column "Model" ras_df = Some ras_model →
  column "Model" tp53_df = Some tp53_model →
  column "Model" clin_df = Some clin_model →
  count_models ras_df = Ok (length ras_model) →
  count_models tp53_df = Ok (length tp53_model) →
  NoDup clin_model →
  prepare fs scores = Ok scores_df →
  length scores_df = length scores ∧
  Final.sample_id <$> scores_df = Scores.sample_id <$> scores.
Proof.
  intros Hras Htp53 Hclin Cras Ctp53 Cclin Nras Ntp53 Nclin Hprep.
  apply (count_models_all _ _ Cras) in Nras.
  apply (count_models_all _ _ Ctp53) in Ntp53.
  assert (E : Final.sample_id <$> scores_df = Scores.sample_id <$> scores);
    [|split; [|done];
      by rewrite <- (length_fmap Final.sample_id), E, length_fmap].
  unfold prepare, load_status, load_clinical in Hprep.
  rewrite (proj2 (read_table_Ok _ _ _) Hras) in Hprep. simpl in Hprep.
  destruct (inspect_status ras_df) as [[]|]; simpl in Hprep; [|done].
  rewrite (proj2 (read_table_Ok _ _ _) Htp53) in Hprep. simpl in Hprep.
  destruct (inspect_status tp53_df) as [[]|]; simpl in Hprep; [|done].
  rewrite (proj2 (read_table_Ok _ _ _) Hclin) in Hprep. simpl in Hprep.
  destruct (normalize_histology clin_df) as [clin_df'|] eqn:Enorm;
    simpl in Hprep; [|done].
  unfold clinical_rows, status_rows, getitem in Hprep.
  rewrite (normalize_histology_other_columns _ _ "Model" Enorm) in Hprep by done.
  rewrite Cclin, Ctp53, Cras in Hprep. simpl in Hprep.
  destruct (column "Histology" clin_df') as [hist|]; simpl in Hprep; [|done].
  destruct (column "Hugo_Symbol" tp53_df) as [tp53_symbol|]; simpl in Hprep; [|done].
  destruct (column "Hugo_Symbol" ras_df) as [ras_symbol|]; simpl in Hprep; [|done].
  injection Hprep as <-.
  unfold reconcile. rewrite <- !list_fmap_compose.
  unfold merge_ras, merge_tp53, merge_clinical.
  rewrite (merge_left_unique_fmap _ _ _ _ In16a.sample_id); [|done|].
  rewrite (merge_left_unique_fmap _ _ _ _ In14.sample_id); [|done|].
  rewrite (merge_left_unique_fmap _ _ _ _ Scores.sample_id); [done|done|].
  - rewrite (fmap_zip_with_left _ _ id) by done. by apply NoDup_take_id.
  - rewrite (fmap_zip_with_right _ _ id) by done. by apply NoDup_take_id.
  - rewrite (fmap_zip_with_right _ _ id) by done. by apply NoDup_take_id.
Qed.

Lemma counted_models_keep_row_count_witness :
  length [final_row Sample.S1 (Some Sample.lung) (Some Sample.tp53) (Some Sample.tp53);
          final_row Sample.S2 None None None]
    = length [Sample.S1; Sample.S2] ∧
  Final.sample_id <$>
    [final_row Sample.S1 (Some Sample.lung) (Some Sample.tp53) (Some Sample.tp53);
     final_row Sample.S2 None None None]
    = Scores.sample_id <$> [Sample.S1; Sample.S2].
Proof.
  apply (counted_models_keep_row_count
           {[ ras_path := Sample.tp53_df; tp53_path := Sample.tp53_df;
              clinical_path := Sample.clinical_df ]}
           [Sample.S1; Sample.S2] _
           Sample.tp53_df Sample.tp53_df Sample.clinical_df
           [Some "S1"] [Some "S1"] [Some "S1"; Some "S3"; Some "S4"]).
  - reflexivity.
  - reflexivity.
  - reflexivity.
  - reflexivity.
  - reflexivity.
  - reflexivity.
  - reflexivity.
  - reflexivity.
  - apply (bool_decide_unpack _). vm_compute. exact I.
  - vm_compute. reflexivity.
Defined.
